(** * MfxVTK: the effects of [mfx_vtk_plugin.cpp]

    A shallow embedding of the Open Mesh Effect plug-in: the identity
    checks, the cook of every registered effect and, in detail, the
    rejection loop of the volume point sampler.

    - [int] values are integers with the 32-bit wrap-around written out.
    - [double] values are binary64 floats ([PrimFloat.float]).
    - The VTK filters are an interface ([Kernel]): the plug-in only
      configures them and copies their output.
    - [utils.h] is not part of the sources at hand: the additive
      recurrence generator is modelled from the specification. *)

From Stdlib Require Import ZArith List String Bool Lia Floats.
From stdpp Require Import base list.
From Equations Require Import Equations.

Set Warnings "-inexact-float".
Local Open Scope Z_scope.

(** ** Machine integers and doubles *)

Module Int.

Definition INT_MIN : Z := - 2 ^ 31.
Definition INT_MAX : Z := 2 ^ 31 - 1.

(** The value of a 32-bit [int] computation whose mathematical result is
    [z] (two's complement wrap-around). *)
Definition wrap (z : Z) : Z := (z + 2 ^ 31) mod 2 ^ 32 - 2 ^ 31.

Definition add (a b : Z) : Z := wrap (a + b).
Definition mul (a b : Z) : Z := wrap (a * b).

Definition in_range (z : Z) : Prop := INT_MIN <= z <= INT_MAX.

End Int.

Module Double.

(** [DBL_EPSILON] of <float.h>: 2^-52. *)
Definition DBL_EPSILON : float := 0x1p-52%float.

(** [static_cast<double>] of a non-negative integer count. *)
Definition of_count (n : Z) : float := PrimFloat.of_uint63 (Uint63.of_Z n).

(** [static_cast<int>] of a double: the fractional part is discarded
    (rounding toward zero); the result is then an [int]. *)
Definition truncate (d : float) : Z :=
  match Prim2SF d with
  | S754_finite s m e =>
      let a := Z.shiftl (Z.pos m) e in
      Int.wrap (if s then - a else a)
  | _ => 0
  end.

End Double.

(** [is_positive_double] (line 57). *)
Definition is_positive_double (x : float) : bool :=
  (Double.DBL_EPSILON <=? x)%float.

(** ** Meshes *)

Definition Point : Type := float * float * float.

(** A cell is the list of the ids of its points. *)
Definition Cell : Type := list Z.

(** [vtkPolyData]: the points, the four cell arrays and the point-data
    arrays (by name). *)
Record vtkPolyData : Type := mkPolyData {
  Points : list Point;
  Verts : list Cell;
  Lines : list Cell;
  Polys : list Cell;
  Strips : list Cell;
  PointData : list (string * list float)
}.

(** [vtkSmartPointer<vtkPolyData>::New()]. *)
Definition vtkPolyData_New : vtkPolyData :=
  mkPolyData [] [] [] [] [] [].

Definition GetNumberOfPoints (m : vtkPolyData) : Z := Z.of_nat (length (Points m)).
Definition GetNumberOfPolys (m : vtkPolyData) : Z := Z.of_nat (length (Polys m)).

(** The cell sequence of a mesh: its four cell arrays. *)
Definition Cells (m : vtkPolyData) : list Cell * list Cell * list Cell * list Cell :=
  (Verts m, Lines m, Polys m, Strips m).

(** [dst->ShallowCopy(src)]: every member of [dst] is replaced by the
    one of [src]. *)
Definition ShallowCopy (dst src : vtkPolyData) : vtkPolyData := src.

(** [dst->SetPoints(pts)]. *)
Definition SetPoints (dst : vtkPolyData) (pts : list Point) : vtkPolyData :=
  mkPolyData pts (Verts dst) (Lines dst) (Polys dst) (Strips dst) (PointData dst).

(** [dst->GetPointData()->AddArray(arr)]: an array of the same name is
    replaced, otherwise the array is appended. *)
Fixpoint AddArray_aux (name : string) (arr : list float)
    (l : list (string * list float)) : list (string * list float) :=
  match l with
  | [] => [(name, arr)]
  | (n, a) :: l' =>
      if String.eqb n name then (name, arr) :: l'
      else (n, a) :: AddArray_aux name arr l'
  end.

Definition AddArray (dst : vtkPolyData) (name : string) (arr : list float) : vtkPolyData :=
  mkPolyData (Points dst) (Verts dst) (Lines dst) (Polys dst) (Strips dst)
             (AddArray_aux name arr (PointData dst)).

(** The output of [vtkDelaunay3D]. *)
Record vtkUnstructuredGrid : Type := mkGrid {
  ug_Points : list Point;
  ug_Cells : list Cell
}.

Inductive vtkDataSet : Type :=
| DS_PolyData (p : vtkPolyData)
| DS_UnstructuredGrid (g : vtkUnstructuredGrid).

(** [vtkPoints] and [vtkFloatArray] of a given size: the slots of a
    freshly sized array hold no meaningful value. *)
Definition unset_point : Point := (0%float, 0%float, 0%float).
Definition unset_value : float := 0%float.

Definition SetNumberOfPoints (n : Z) (pts : list Point) : list Point :=
  resize (Z.to_nat n) unset_point pts.
Definition SetNumberOfTuples (n : Z) (arr : list float) : list float :=
  resize (Z.to_nat n) unset_value arr.
Definition SetPoint (id : Z) (p : Point) (pts : list Point) : list Point :=
  <[Z.to_nat id := p]> pts.
Definition SetValue (id : Z) (v : float) (arr : list float) : list float :=
  <[Z.to_nat id := v]> arr.

(** ** Status codes and the standard output *)

Inductive OfxStatus : Type :=
| kOfxStatOK
| kOfxStatFailed
| kOfxStatErrBadHandle.

(** What the plug-in prints with [printf]: the format and its arguments. *)
Inductive Printed : Type :=
| WARNING_gave_up (iteration_count i : Z)
| FillHoles_identity_check (hole_size eps : float).

(** ** The parameter store *)

(** Modelled from the spec: the parameter store behind
    [GetParam<T>(name).GetValue()] ([VtkEffect.h] and the plug-in support
    classes, not among the sources): "mapping from parameter name to
    current value (kind-checked) ... populated with defaults from
    descriptors at describe time, overwritten by host-driven user edits,
    read-only during cook". Every parameter has a value of its kind, so a
    lookup by name and kind is total. *)
Record OfxParamSet : Type := mkParamSet {
  param_int : string -> Z;
  param_double : string -> float;
  param_bool : string -> bool;
  param_int3 : string -> Z * Z * Z
}.

(** [GetParam<int>(name).GetValue()], and the same for the other kinds. *)
Definition GetParam_int (ps : OfxParamSet) (name : string) : Z := param_int ps name.
Definition GetParam_double (ps : OfxParamSet) (name : string) : float := param_double ps name.
Definition GetParam_bool (ps : OfxParamSet) (name : string) : bool := param_bool ps name.
Definition GetParam_int3 (ps : OfxParamSet) (name : string) : Z * Z * Z := param_int3 ps name.

(** ** The geometry kernel

    A filter is configured by a sequence of setter calls and run on its
    input by [Update]; the plug-in relies on nothing else. *)

Inductive SetterArg : Type :=
| ArgInt (z : Z)
| ArgDouble (d : float)
| ArgBool (b : bool).

(** A setter call: the method's name and its arguments. *)
Definition Setter : Type := string * list SetterArg.

Definition Bounds : Type := float * float * float * float * float * float.

Record Kernel : Type := mkKernel {
  GetBounds : vtkPolyData -> Bounds;
  vtkSmoothPolyDataFilter : list Setter -> vtkPolyData -> vtkPolyData;
  vtkWindowedSincPolyDataFilter : list Setter -> vtkPolyData -> vtkPolyData;
  vtkPolyDataPointSampler : list Setter -> vtkPolyData -> vtkPolyData;
  vtkAppendPolyData : list vtkPolyData -> vtkPolyData;
  vtkTriangleFilter : vtkPolyData -> vtkPolyData;
  vtkMaskPoints : list Setter -> vtkPolyData -> vtkPolyData;
  vtkFeatureEdges : list Setter -> vtkPolyData -> vtkPolyData;
  vtkDelaunay3D : list Setter -> vtkPolyData -> vtkUnstructuredGrid;
  vtkGeometryFilter : vtkUnstructuredGrid -> vtkPolyData;
  vtkExtractEdges : vtkDataSet -> vtkPolyData;
  vtkTubeFilter : list Setter -> vtkPolyData -> vtkPolyData;
  vtkDecimatePro : list Setter -> vtkPolyData -> vtkPolyData;
  vtkQuadricDecimation : list Setter -> vtkPolyData -> vtkPolyData;
  vtkQuadricClustering : list Setter -> vtkPolyData -> vtkPolyData;
  vtkFillHolesFilter : list Setter -> vtkPolyData -> vtkPolyData;
  (** [vtkImplicitPolyDataDistance]: [EvaluateFunction] of the object
      whose input was set to the given mesh. *)
  EvaluateFunction : vtkPolyData -> float -> float -> float -> float
}.

(** [vtkMinimalStandardRandomSequence]: a state, [Next] and
    [GetRangeValue]. *)
Record RandomSequence : Type := mkRandomSequence {
  rs_state : Type;
  rs_New : rs_state;
  rs_Next : rs_state -> rs_state;
  rs_GetRangeValue : rs_state -> float -> float -> float
}.

(** ** The additive recurrence generator *)

Module AdditiveRecurrence.

(** Modelled from the spec: the constants of the class
    [AdditiveRecurrence<DIM>] of [utils.h], which is not among the
    sources. The specification describes the class as "a deterministic
    low-discrepancy 3-dimensional additive-recurrence sequence (one
    irrational increment per dimension, wrapped modulo 1, mapped into the
    bounding box per axis)"; it gives neither the increments nor the
    start value. *)
Record constants : Type := mkConstants {
  increment : list float;
  start : list float
}.

(** Modelled from the spec: the state of the generator, the current value
    of each dimension, in [0, 1). *)
Definition t : Type := list float.

(** Modelled from the spec: the constructor of [utils.h]; "deterministic",
    so every generator starts from the same values. *)
Definition New (c : constants) : t := start c.

(** Modelled from the spec: "wrapped modulo 1", for the sum of two values
    of [0, 1). *)
Definition wrap1 (s : float) : float :=
  if (1 <=? s)%float then (s - 1)%float else s.

(** Modelled from the spec: [Next()] of [utils.h], "one irrational
    increment per dimension, wrapped modulo 1". *)
Definition Next (c : constants) (x : t) : t :=
  zip_with (fun xi a => wrap1 (xi + a)%float) x (increment c).

(** Modelled from the spec: the current value of dimension [i]. *)
Definition GetValue (x : t) (i : Z) : float :=
  nth (Z.to_nat i) x 0%float.

(** Modelled from the spec: [GetRangeValue(i, low, high)] of [utils.h],
    "mapped into the bounding box per axis". *)
Definition GetRangeValue (x : t) (i : Z) (low high : float) : float :=
  (low + GetValue x i * (high - low))%float.

End AdditiveRecurrence.

(** ** What a cook returns *)

Record CookResult : Type := mkCookResult {
  status : OfxStatus;
  output_polydata : vtkPolyData;
  stdout : list Printed
}.

(** ** Volume sampling (lines 249-364) *)

Module VolumePointSampler.

Definition PARAM_NUMBER_OF_POINTS : string := "NumberOfPoints".
Definition PARAM_DISTRIBUTE_UNIFORMLY : string := "DistributeUniformly".
Definition PARAM_AUTO_SIMPLIFY : string := "AutoSimplify".

(** Line 294: [1000 + static_cast<int>(std::sqrt(input_polycount))]. *)
Definition target_polycount (input_polycount : Z) : Z :=
  Int.add 1000 (Double.truncate (PrimFloat.sqrt (Double.of_count input_polycount))).

(** Line 295. *)
Definition target_reduction (input_polycount : Z) : float :=
  (Double.of_count (target_polycount input_polycount) / Double.of_count input_polycount)%float.

Section Cook.

Context (K : Kernel) (R : RandomSequence) (C : AdditiveRecurrence.constants).

(** Lines 284-308: the mesh handed to [poly_data_distance->SetInput]. *)
Definition distance_input (input_polydata : vtkPolyData)
    (auto_simplify _assume_input_polydata_triangles : bool) : vtkPolyData :=
  if auto_simplify && (100 <? GetNumberOfPolys input_polydata) then
    let input_triangle_mesh :=
      if negb _assume_input_polydata_triangles
      then vtkTriangleFilter K input_polydata
      else input_polydata in
    let input_polycount := GetNumberOfPolys input_triangle_mesh in
    let target_reduction := target_reduction input_polycount in
    if (target_reduction <? 1)%float then
      vtkQuadricDecimation K
        [("SetTargetReduction"%string, [ArgDouble target_reduction])]
        input_triangle_mesh
    else input_polydata
  else input_polydata.

(** The two generators the lambda [get_random_uniform] captures by
    reference. *)
Record Generators : Type := mkGenerators {
  random_generator_vtk : rs_state R;
  random_generator_custom : AdditiveRecurrence.t
}.

(** Lines 324-332. *)
Definition get_random_uniform (distribute_uniformly : bool) (g : Generators)
    (i : Z) (low high : float) : float * Generators :=
  if distribute_uniformly then
    let c := AdditiveRecurrence.Next C (random_generator_custom g) in
    (AdditiveRecurrence.GetRangeValue c i low high,
     mkGenerators (random_generator_vtk g) c)
  else
    let v := rs_Next R (random_generator_vtk g) in
    (rs_GetRangeValue R v low high,
     mkGenerators v (random_generator_custom g)).

(** Lines 339-343: one candidate, its distance and the generators after
    the three draws. *)
Definition draw (distribute_uniformly : bool) (bounds : Bounds)
    (distance_mesh : vtkPolyData) (g : Generators) : Point * float * Generators :=
  let '(b0, b1, b2, b3, b4, b5) := bounds in
  let '(x, g) := get_random_uniform distribute_uniformly g 0 b0 b1 in
  let '(y, g) := get_random_uniform distribute_uniformly g 1 b2 b3 in
  let '(z, g) := get_random_uniform distribute_uniformly g 2 b4 b5 in
  let distance := EvaluateFunction K distance_mesh x y z in
  ((x, y, z), distance, g).

(** The variables the loop of lines 335-351 changes. *)
Record LoopState : Type := mkLoopState {
  i : Z;
  iteration_count : Z;
  points : list Point;
  distance_arr : list float;
  generators : Generators
}.

(** Line 336. *)
Definition loop_condition (number_of_points : Z) (s : LoopState) : bool :=
  (i s <? number_of_points) && (iteration_count s <? Int.mul 10 number_of_points).

(** Lines 339-350, then [iteration_count++]. *)
Definition loop_body (distribute_uniformly : bool) (bounds : Bounds)
    (distance_mesh : vtkPolyData) (s : LoopState) : LoopState :=
  let '(p, distance, g) := draw distribute_uniformly bounds distance_mesh (generators s) in
  if (distance <? 0)%float then
    mkLoopState (Int.add (i s) 1) (Int.add (iteration_count s) 1)
                (SetPoint (i s) p (points s))
                (SetValue (i s) distance (distance_arr s)) g
  else
    mkLoopState (i s) (Int.add (iteration_count s) 1)
                (points s) (distance_arr s) g.

Definition inspect {A : Type} (a : A) : { b : A | a = b } := exist _ a eq_refl.

(** The [for] loop of lines 335-351, from the state [s]. *)
Equations? rejection_loop (number_of_points : Z) (distribute_uniformly : bool)
    (bounds : Bounds) (distance_mesh : vtkPolyData) (s : LoopState) : LoopState
    by wf (Z.to_nat (Int.mul 10 number_of_points - iteration_count s)) lt :=
  rejection_loop number_of_points distribute_uniformly bounds distance_mesh s
    with inspect (loop_condition number_of_points s) => {
    | exist _ true _ :=
        rejection_loop number_of_points distribute_uniformly bounds distance_mesh
          (loop_body distribute_uniformly bounds distance_mesh s);
    | exist _ false _ := s }.
Proof.
  unfold loop_condition in e. apply andb_prop in e as [_ Hlt].
  apply Z.ltb_lt in Hlt.
  assert (Hit : iteration_count (loop_body distribute_uniformly bounds distance_mesh s)
                = Int.add (iteration_count s) 1).
  { unfold loop_body. destruct (draw _ _ _ _) as [[p d] g].
    destruct (d <? 0)%float; reflexivity. }
  rewrite Hit. revert Hlt. unfold Int.mul, Int.add, Int.wrap.
  change (2 ^ 31) with 2147483648. change (2 ^ 32) with 4294967296.
  intros Hlt. Z.div_mod_to_equations. lia.
Qed.

(** Lines 279-351: the setup and the loop, up to the state in which the
    loop is left. *)
Definition sampling_loop (input_polydata : vtkPolyData)
    (number_of_points : Z) (distribute_uniformly auto_simplify : bool)
    (_assume_input_polydata_triangles : bool) : LoopState :=
  let bounds := GetBounds K input_polydata in
  let distance_mesh :=
    distance_input input_polydata auto_simplify _assume_input_polydata_triangles in
  rejection_loop number_of_points distribute_uniformly bounds distance_mesh
    (mkLoopState 0 0
       (SetNumberOfPoints number_of_points [])
       (SetNumberOfTuples number_of_points [])
       (mkGenerators (rs_New R) (AdditiveRecurrence.New C))).

(** Lines 276-363. The output mesh holds [points] and [distance_arr] by
    reference ([SetPoints], [AddArray]): what it shows at the return is
    the final content of the two arrays. *)
Definition vtkCook_inner (input_polydata output_polydata : vtkPolyData)
    (number_of_points : Z) (distribute_uniformly auto_simplify : bool)
    (_assume_input_polydata_triangles : bool) : CookResult :=
  let s := sampling_loop input_polydata number_of_points distribute_uniformly
             auto_simplify _assume_input_polydata_triangles in
  let '(final_points, final_distance_arr, printed) :=
    if i s <? number_of_points then
      (SetNumberOfPoints (i s) (points s),
       SetNumberOfTuples (i s) (distance_arr s),
       [WARNING_gave_up (iteration_count s) (i s)])
    else (points s, distance_arr s, []) in
  mkCookResult kOfxStatOK
    (AddArray (SetPoints output_polydata final_points) "distance" final_distance_arr)
    printed.

(** Lines 268-274. *)
Definition vtkCook (ps : OfxParamSet) (input_polydata output_polydata : vtkPolyData) : CookResult :=
  let number_of_points := GetParam_int ps PARAM_NUMBER_OF_POINTS in
  let distribute_uniformly := GetParam_bool ps PARAM_DISTRIBUTE_UNIFORMLY in
  let auto_simplify := GetParam_bool ps PARAM_AUTO_SIMPLIFY in
  vtkCook_inner input_polydata output_polydata number_of_points
                distribute_uniformly auto_simplify false.

(** The number of attempts made, as a natural number. *)
Definition attempts (s : LoopState) : nat := Z.to_nat (iteration_count s).

(** *** The candidates of a run

    What the loop draws, as a sequence: the statements about the loop are
    made against it. *)

Section Candidates.

Variables (distribute_uniformly : bool) (bounds : Bounds) (distance_mesh : vtkPolyData).

(** The generators once [n] candidates have been drawn from [g]. *)
Fixpoint generators_after (n : nat) (g : Generators) : Generators :=
  match n with
  | O => g
  | S n' =>
      snd (draw distribute_uniformly bounds distance_mesh (generators_after n' g))
  end.

(** The candidate of attempt [n] (from 0), with its distance. *)
Definition candidate (g : Generators) (n : nat) : Point * float :=
  fst (draw distribute_uniformly bounds distance_mesh (generators_after n g)).

(** The candidates of the first [n] attempts. *)
Definition candidates (n : nat) (g : Generators) : list (Point * float) :=
  map (candidate g) (seq 0 n).

(** Line 346: [distance < 0]. *)
Definition inside (c : Point * float) : bool := (snd c <? 0)%float.

(** Those of the first [n] candidates that are inside, in order. *)
Definition accepted (n : nat) (g : Generators) : list (Point * float) :=
  List.filter inside (candidates n g).


(** What holds of the state [s] of a run for [number_of_points] points
    that started from the generators [g0]: the first [i] slots of the two
    arrays hold the candidates accepted so far. *)
Record run_invariant (number_of_points : Z) (g0 : Generators) (s : LoopState) : Prop := {
  inv_attempts : 0 <= iteration_count s <= Z.max 0 (Int.mul 10 number_of_points);
  inv_generators : generators s = generators_after (attempts s) g0;
  inv_i : i s = Z.of_nat (length (accepted (attempts s) g0));
  inv_i_le : i s <= number_of_points;
  inv_points_length : length (points s) = Z.to_nat number_of_points;
  inv_distance_length : length (distance_arr s) = Z.to_nat number_of_points;
  inv_points : take (Z.to_nat (i s)) (points s) = map fst (accepted (attempts s) g0);
  inv_distance : take (Z.to_nat (i s)) (distance_arr s) = map snd (accepted (attempts s) g0)
}.

End Candidates.

Definition initial_generators : Generators :=
  mkGenerators (rs_New R) (AdditiveRecurrence.New C).

End Cook.

Arguments mkGenerators {R} _ _.
Arguments random_generator_vtk {R} _.
Arguments random_generator_custom {R} _.
Arguments mkLoopState {R} _ _ _ _ _.
Arguments i {R} _.
Arguments iteration_count {R} _.
Arguments points {R} _.
Arguments distance_arr {R} _.
Arguments generators {R} _.
Arguments loop_condition {R} _ _.
Arguments attempts {R} _.

(** A loop state without the state of the pseudo-random sequence. *)
Definition erase {R : RandomSequence} (s : LoopState R)
  : Z * Z * list Point * list float * AdditiveRecurrence.t :=
  (i s, iteration_count s, points s, distance_arr s,
   random_generator_custom (generators s)).

End VolumePointSampler.

(** The point-data array of a given name. *)
Definition GetArray (name : string) (m : vtkPolyData) : option (list float) :=
  snd <$> List.find (fun na => String.eqb (fst na) name) (PointData m).


(** ** The effects and their registry *)

Inductive Effect : Type :=
| VtkSmoothPolyDataFilterEffect
| VtkWindowedSincPolyDataFilterEffect
| VtkPolyDataPointSamplerEffect
| VtkMaskPointsEffect
| VtkFeatureEdgesEffect
| VtkVolumePointSamplerEffect
| VtkDelaunay3DEffect
| VtkFillHolesEffect
| VtkTubeFilterEffect
| VtkQuadricDecimationEffect
| VtkDecimateProEffect
| VtkQuadricClusteringEffect
| VtkIdentityEffect.

(** [MfxRegister(...)], lines 880-896. *)
Definition registry : list Effect :=
  [ VtkSmoothPolyDataFilterEffect; VtkWindowedSincPolyDataFilterEffect;
    VtkPolyDataPointSamplerEffect; VtkMaskPointsEffect; VtkFeatureEdgesEffect;
    VtkVolumePointSamplerEffect; VtkDelaunay3DEffect; VtkFillHolesEffect;
    VtkTubeFilterEffect; VtkQuadricDecimationEffect; VtkDecimateProEffect;
    VtkQuadricClusteringEffect; VtkIdentityEffect ].

Definition GetName (e : Effect) : string :=
  match e with
  | VtkSmoothPolyDataFilterEffect => "Smooth (Laplacian)"
  | VtkWindowedSincPolyDataFilterEffect => "Smooth (windowed sinc)"
  | VtkPolyDataPointSamplerEffect => "Point sampling"
  | VtkMaskPointsEffect => "Mask points"
  | VtkFeatureEdgesEffect => "Feature edges"
  | VtkVolumePointSamplerEffect => "Volume sampling"
  | VtkDelaunay3DEffect => "Delaunay 3D"
  | VtkFillHolesEffect => "Fill holes"
  | VtkTubeFilterEffect => "Tube filter"
  | VtkQuadricDecimationEffect => "Decimate (quadric)"
  | VtkDecimateProEffect => "Decimate (pro)"
  | VtkQuadricClusteringEffect => "Decimate (quadratic clustering)"
  | VtkIdentityEffect => "Identity"
  end.

(** Modelled from the spec: the default of [VtkEffect::vtkIsIdentity]
    ([VtkEffect.h], not among the sources): "isIdentity (optional; default
    false)". *)
Definition VtkEffect_vtkIsIdentity (ps : OfxParamSet) : bool * list Printed :=
  (false, []).

(** [vtkIsIdentity] (lines 640-643, 701-704, 830-834, 867-870): the
    answer and what the check prints. *)
Definition vtkIsIdentity (e : Effect) (ps : OfxParamSet) : bool * list Printed :=
  match e with
  | VtkDecimateProEffect =>
      let target_reduction := GetParam_double ps "TargetReduction" in
      (negb (is_positive_double target_reduction), [])
  | VtkQuadricDecimationEffect =>
      let target_reduction := GetParam_double ps "TargetReduction" in
      (negb (is_positive_double target_reduction), [])
  | VtkFillHolesEffect =>
      let hole_size := GetParam_double ps "HoleSize" in
      (negb (is_positive_double hole_size),
       [FillHoles_identity_check hole_size Double.DBL_EPSILON])
  | VtkIdentityEffect =>
      let action_is_identity := GetParam_bool ps "ActionIsIdentity" in
      (action_is_identity, [])
  | _ => VtkEffect_vtkIsIdentity ps
  end.

Definition isIdentity (e : Effect) (ps : OfxParamSet) : bool :=
  fst (vtkIsIdentity e ps).

Section Cooks.

Context (K : Kernel) (R : RandomSequence) (C : AdditiveRecurrence.constants).

Local Open Scope string_scope.

Definition set_int (name : string) (z : Z) : Setter := (name, [ArgInt z]).
Definition set_double (name : string) (d : float) : Setter := (name, [ArgDouble d]).
Definition set_bool (name : string) (b : bool) : Setter := (name, [ArgBool b]).

(** Every cook but the sampler's ends with
    [output_polydata->ShallowCopy(filter_output); return kOfxStatOK;]. *)
Definition copy_out (output_polydata filter_output : vtkPolyData) : CookResult :=
  mkCookResult kOfxStatOK (ShallowCopy output_polydata filter_output) [].

(** Lines 87-112. *)
Definition Smooth_vtkCook (ps : OfxParamSet) (input_polydata output_polydata : vtkPolyData) : CookResult :=
  let iterations := GetParam_int ps "NumberOfIterations" in
  let convergence := GetParam_double ps "Convergence" in
  let boundary_smoothing := GetParam_bool ps "BoundarySmoothing" in
  let relaxation_factor := GetParam_double ps "RelaxationFactor" in
  let feature_edge_smoothing := GetParam_bool ps "FeatureEdgeSmoothing" in
  let feature_angle := GetParam_double ps "FeatureAngle" in
  let edge_angle := GetParam_double ps "EdgeAngle" in
  copy_out output_polydata
    (vtkSmoothPolyDataFilter K
       [ set_int "SetNumberOfIterations" iterations;
         set_double "SetConvergence" convergence;
         set_bool "SetBoundarySmoothing" boundary_smoothing;
         set_double "SetRelaxationFactor" relaxation_factor;
         set_bool "SetFeatureEdgeSmoothing" feature_edge_smoothing;
         set_double "SetFeatureAngle" feature_angle;
         set_double "SetEdgeAngle" edge_angle ]
       input_polydata).

(** Lines 145-172. *)
Definition WindowedSinc_vtkCook (ps : OfxParamSet) (input_polydata output_polydata : vtkPolyData) : CookResult :=
  let iterations := GetParam_int ps "NumberOfIterations" in
  let passband := GetParam_double ps "PassBand" in
  let boundary_smoothing := GetParam_bool ps "BoundarySmoothing" in
  let nonmanifold_smoothing := GetParam_bool ps "NonManifoldSmoothing" in
  let feature_edge_smoothing := GetParam_bool ps "FeatureEdgeSmoothing" in
  let feature_angle := GetParam_double ps "FeatureAngle" in
  let edge_angle := GetParam_double ps "EdgeAngle" in
  let normalize_coordinates := GetParam_bool ps "NormalizeCoordinates" in
  copy_out output_polydata
    (vtkWindowedSincPolyDataFilter K
       [ set_int "SetNumberOfIterations" iterations;
         set_double "SetPassBand" passband;
         set_bool "SetBoundarySmoothing" boundary_smoothing;
         set_bool "SetNonManifoldSmoothing" nonmanifold_smoothing;
         set_bool "SetFeatureEdgeSmoothing" feature_edge_smoothing;
         set_double "SetFeatureAngle" feature_angle;
         set_double "SetEdgeAngle" edge_angle;
         set_bool "SetNormalizeCoordinates" normalize_coordinates ]
       input_polydata).

(** Lines 201-244. *)
Definition PointSampler_vtkCook (ps : OfxParamSet) (input_polydata output_polydata : vtkPolyData) : CookResult :=
  let distance := GetParam_double ps "Distance" in
  let generate_vertex_points := true in
  let generate_edge_points := GetParam_bool ps "GenerateEdgePoints" in
  let generate_interior_points := GetParam_bool ps "GenerateInteriorPoints" in
  let interpolate_point_data := GetParam_bool ps "InterpolatePointData" in
  let vertex_edge_sampler :=
    vtkPolyDataPointSampler K
      [ set_double "SetDistance" distance;
        set_bool "SetGenerateVertexPoints" generate_vertex_points;
        set_bool "SetGenerateEdgePoints" generate_edge_points;
        set_bool "SetGenerateInteriorPoints" false;
        set_bool "SetInterpolatePointData" interpolate_point_data ]
      input_polydata in
  let face_sampler :=
    vtkPolyDataPointSampler K
      [ set_double "SetDistance" distance;
        set_bool "SetGenerateVertexPoints" false;
        set_bool "SetGenerateEdgePoints" false;
        set_bool "SetGenerateInteriorPoints" true;
        set_bool "SetInterpolatePointData" interpolate_point_data ]
      (vtkTriangleFilter K input_polydata) in
  copy_out output_polydata
    (vtkAppendPolyData K
       (vertex_edge_sampler ::
        (if generate_interior_points then [face_sampler] else []))).

(** Lines 390-414. *)
Definition MaskPoints_vtkCook (ps : OfxParamSet) (input_polydata output_polydata : vtkPolyData) : CookResult :=
  let use_random_mode := GetParam_bool ps "RandomMode" in
  let random_mode_type := GetParam_int ps "RandomModeType" in
  let on_ratio := GetParam_int ps "OnRatio" in
  let maximum_number_of_points := GetParam_int ps "MaximumNumberOfPoints" in
  let random_mode_type := Z.max 0 (Z.min 3 random_mode_type) in
  copy_out output_polydata
    (vtkMaskPoints K
       [ set_bool "SetRandomMode" use_random_mode;
         set_int "SetRandomModeType" random_mode_type;
         set_int "SetOnRatio" on_ratio;
         set_int "SetMaximumNumberOfPoints" maximum_number_of_points ]
       input_polydata).

(** Lines 441-465. *)
Definition FeatureEdges_vtkCook (ps : OfxParamSet) (input_polydata output_polydata : vtkPolyData) : CookResult :=
  let feature_angle := GetParam_double ps "FeatureAngle" in
  let extract_feature_edges := GetParam_bool ps "FeatureEdges" in
  let extract_boundary_edges := GetParam_bool ps "BoundaryEdges" in
  let extract_nonmanifold_edges := GetParam_bool ps "NonManifoldEdges" in
  let extract_manifold_edges := GetParam_bool ps "ManifoldEdges" in
  copy_out output_polydata
    (vtkFeatureEdges K
       [ set_double "SetFeatureAngle" feature_angle;
         set_bool "SetFeatureEdges" extract_feature_edges;
         set_bool "SetBoundaryEdges" extract_boundary_edges;
         set_bool "SetNonManifoldEdges" extract_nonmanifold_edges;
         set_bool "SetManifoldEdges" extract_manifold_edges;
         set_bool "SetColoring" false ]
       input_polydata).

(** Lines 496-535. *)
Definition Delaunay3D_vtkCook (ps : OfxParamSet) (input_polydata output_polydata : vtkPolyData) : CookResult :=
  let extract_surface := GetParam_bool ps "ExtractSurface" in
  let extract_wireframe := GetParam_bool ps "ExtractWireframe" in
  let delaunay3d_filter := vtkDelaunay3D K [ set_double "SetAlpha" 0 ] input_polydata in
  copy_out output_polydata
    (vtkAppendPolyData K
       ((if extract_surface then [vtkGeometryFilter K delaunay3d_filter] else []) ++
        (if extract_wireframe
         then [vtkExtractEdges K (DS_UnstructuredGrid delaunay3d_filter)] else []))).

(** Lines 561-603. *)
Definition TubeFilter_vtkCook (ps : OfxParamSet) (input_polydata output_polydata : vtkPolyData) : CookResult :=
  let radius := GetParam_double ps "Radius" in
  let number_of_sides := GetParam_int ps "NumberOfSides" in
  let capping := GetParam_bool ps "Capping" in
  let append_poly_data :=
    vtkAppendPolyData K
      [ if (0 <? GetNumberOfPolys input_polydata)%Z
        then vtkExtractEdges K (DS_PolyData input_polydata)
        else input_polydata ] in
  let tube_filter :=
    vtkTubeFilter K
      [ set_double "SetRadius" radius;
        set_int "SetNumberOfSides" number_of_sides;
        set_bool "SetCapping" capping;
        set_bool "SetSidesShareVertices" true ]
      append_poly_data in
  copy_out output_polydata (vtkTriangleFilter K tube_filter).

(** Lines 645-680. *)
Definition DecimatePro_vtkCook (ps : OfxParamSet) (input_polydata output_polydata : vtkPolyData) : CookResult :=
  let target_reduction := GetParam_double ps "TargetReduction" in
  let preserve_topology := GetParam_bool ps "PreserveTopology" in
  let feature_angle := GetParam_double ps "FeatureAngle" in
  let splitting := GetParam_bool ps "Splitting" in
  let split_angle := GetParam_double ps "SplitAngle" in
  let maximum_error := GetParam_double ps "MaximumError" in
  let absolute_error := GetParam_bool ps "AbsoluteError" in
  let boundary_vertex_deletion := GetParam_bool ps "BoundaryVertexDeletion" in
  let inflection_point_ratio := GetParam_double ps "InflectionPointRatio" in
  let degree := GetParam_int ps "Degree" in
  let triangle_filter := vtkTriangleFilter K input_polydata in
  copy_out output_polydata
    (vtkDecimatePro K
       [ set_double "SetTargetReduction" target_reduction;
         set_bool "SetPreserveTopology" preserve_topology;
         set_double "SetFeatureAngle" feature_angle;
         set_bool "SetSplitting" splitting;
         set_double "SetSplitAngle" split_angle;
         set_double "SetMaximumError" maximum_error;
         set_bool "SetAbsoluteError" absolute_error;
         set_bool "SetBoundaryVertexDeletion" boundary_vertex_deletion;
         set_double "SetInflectionPointRatio" inflection_point_ratio;
         set_int "SetDegree" degree ]
       triangle_filter).

(** Lines 706-726. *)
Definition QuadricDecimation_vtkCook (ps : OfxParamSet) (input_polydata output_polydata : vtkPolyData) : CookResult :=
  let target_reduction := GetParam_double ps "TargetReduction" in
  let volume_preservation := GetParam_bool ps "PreserveTopology" in
  let triangle_filter := vtkTriangleFilter K input_polydata in
  copy_out output_polydata
    (vtkQuadricDecimation K
       [ set_double "SetTargetReduction" target_reduction;
         set_bool "SetVolumePreservation" volume_preservation ]
       triangle_filter).

(** Lines 797-811. *)
Definition QuadricClustering_vtkCook (ps : OfxParamSet) (input_polydata output_polydata : vtkPolyData) : CookResult :=
  let '(d0, d1, d2) := GetParam_int3 ps "NumberOfDivisions" in
  let auto_adjust_number_of_divisions := GetParam_bool ps "AutoAdjustNumberOfDivisions" in
  copy_out output_polydata
    (vtkQuadricClustering K
       [ ("SetNumberOfDivisions", [ArgInt d0; ArgInt d1; ArgInt d2]);
         set_bool "SetAutoAdjustNumberOfDivisions" auto_adjust_number_of_divisions ]
       input_polydata).

(** Lines 836-849. *)
Definition FillHoles_vtkCook (ps : OfxParamSet) (input_polydata output_polydata : vtkPolyData) : CookResult :=
  let hole_size := GetParam_double ps "HoleSize" in
  copy_out output_polydata
    (vtkFillHolesFilter K [ set_double "SetHoleSize" hole_size ] input_polydata).

(** Lines 872-875. *)
Definition Identity_vtkCook (ps : OfxParamSet) (input_polydata output_polydata : vtkPolyData) : CookResult :=
  mkCookResult kOfxStatOK (ShallowCopy output_polydata input_polydata) [].

(** The virtual call [effect->vtkCook(input_polydata, output_polydata)]. *)
Definition vtkCook (e : Effect) : OfxParamSet -> vtkPolyData -> vtkPolyData -> CookResult :=
  match e with
  | VtkSmoothPolyDataFilterEffect => Smooth_vtkCook
  | VtkWindowedSincPolyDataFilterEffect => WindowedSinc_vtkCook
  | VtkPolyDataPointSamplerEffect => PointSampler_vtkCook
  | VtkMaskPointsEffect => MaskPoints_vtkCook
  | VtkFeatureEdgesEffect => FeatureEdges_vtkCook
  | VtkVolumePointSamplerEffect => VolumePointSampler.vtkCook K R C
  | VtkDelaunay3DEffect => Delaunay3D_vtkCook
  | VtkFillHolesEffect => FillHoles_vtkCook
  | VtkTubeFilterEffect => TubeFilter_vtkCook
  | VtkQuadricDecimationEffect => QuadricDecimation_vtkCook
  | VtkDecimateProEffect => DecimatePro_vtkCook
  | VtkQuadricClusteringEffect => QuadricClustering_vtkCook
  | VtkIdentityEffect => Identity_vtkCook
  end.



End Cooks.

(** ** A reference kernel

    Executable stand-ins for the kernel, the pseudo-random sequence and the
    constants of the additive recurrence, on which the model is run. *)

Module Reference.

Local Open Scope float_scope.

Definition fmin (a b : float) : float := if a <? b then a else b.
Definition fmax (a b : float) : float := if a <? b then b else a.

(** The bounding box of the points; the box of no point is VTK's
    uninitialised one. *)
Definition GetBounds (m : vtkPolyData) : Bounds :=
  match Points m with
  | [] => (1, -1, 1, -1, 1, -1)
  | (x, y, z) :: ps =>
      fold_left
        (fun '(b0, b1, b2, b3, b4, b5) '(x, y, z) =>
           (fmin b0 x, fmax b1 x, fmin b2 y, fmax b3 y, fmin b4 z, fmax b5 z))
        ps (x, x, y, y, z, z)
  end.

(** A polygon as a fan of triangles around its first point. *)
Fixpoint fan (first : Z) (rest : list Z) : list Cell :=
  match rest with
  | a :: (b :: _) as tl => [first; a; b] :: fan first tl
  | _ => []
  end.

Definition triangulate (c : Cell) : list Cell :=
  match c with
  | first :: rest => fan first rest
  | [] => []
  end.

Definition vtkTriangleFilter (m : vtkPolyData) : vtkPolyData :=
  mkPolyData (Points m) (Verts m) (Lines m)
             (concat (map triangulate (Polys m))) [] (PointData m).

Fixpoint target_reduction_of (settings : list Setter) (default : float) : float :=
  match settings with
  | [] => default
  | (name, args) :: rest =>
      let r := target_reduction_of rest default in
      match args with
      | [ArgDouble d] => if String.eqb name "SetTargetReduction" then d else r
      | _ => r
      end
  end.

(** The face count after a decimation: [TargetReduction] is the fraction
    of the triangles that is removed, clamped to [0, 1]. *)
Definition decimated_count (reduction : float) (n : Z) : Z :=
  let r := fmax 0 (fmin 1 reduction) in
  (n - Double.truncate (r * Double.of_count n))%Z.

(** A decimation that honours the face count only: the first triangles
    are kept. *)
Definition decimate (settings : list Setter) (m : vtkPolyData) : vtkPolyData :=
  let keep := decimated_count (target_reduction_of settings 0.9) (GetNumberOfPolys m) in
  mkPolyData (Points m) (Verts m) (Lines m)
             (take (Z.to_nat keep) (Polys m)) (Strips m) (PointData m).

Definition shift (k : Z) (cells : list Cell) : list Cell :=
  map (map (Z.add k)) cells.

Definition append2 (a b : vtkPolyData) : vtkPolyData :=
  let k := GetNumberOfPoints a in
  mkPolyData (Points a ++ Points b)
             (Verts a ++ shift k (Verts b)) (Lines a ++ shift k (Lines b))
             (Polys a ++ shift k (Polys b)) (Strips a ++ shift k (Strips b)) [].

Definition vtkAppendPolyData (inputs : list vtkPolyData) : vtkPolyData :=
  fold_left append2 inputs vtkPolyData_New.

Definition sub3 (p q : Point) : Point :=
  let '(px, py, pz) := p in let '(qx, qy, qz) := q in (px - qx, py - qy, pz - qz).
Definition cross (p q : Point) : Point :=
  let '(px, py, pz) := p in let '(qx, qy, qz) := q in
  (py * qz - pz * qy, pz * qx - px * qz, px * qy - py * qx).
Definition dot (p q : Point) : float :=
  let '(px, py, pz) := p in let '(qx, qy, qz) := q in px * qx + py * qy + pz * qz.

Definition GetPoint (m : vtkPolyData) (id : Z) : Point :=
  nth (Z.to_nat id) (Points m) unset_point.

(** The signed distance of [p] to the plane of a face, positive on the
    side of its normal. *)
Definition plane_distance (m : vtkPolyData) (p : Point) (c : Cell) : option float :=
  match c with
  | a :: b :: c :: _ =>
      let pa := GetPoint m a in
      let n := cross (sub3 (GetPoint m b) pa) (sub3 (GetPoint m c) pa) in
      Some (dot n (sub3 p pa) / PrimFloat.sqrt (dot n n))
  | _ => None
  end.

(** The implicit distance of a convex solid whose faces are oriented
    outward: the largest of the distances to the planes of the faces
    (negative inside). Without a face there is no value: 0. *)
Definition EvaluateFunction (m : vtkPolyData) (x y z : float) : float :=
  match omap (plane_distance m (x, y, z)) (Polys m) with
  | [] => 0
  | d :: ds => fold_left fmax ds d
  end.

Definition kernel : Kernel :=
  mkKernel GetBounds
    (fun _ m => m) (fun _ m => m) (fun _ m => m)
    vtkAppendPolyData vtkTriangleFilter
    (fun _ m => m) (fun _ m => m)
    (fun _ m => mkGrid (Points m) [])
    (fun g => mkPolyData (ug_Points g) [] [] [] [] [])
    (fun d => match d with
              | DS_PolyData m => m
              | DS_UnstructuredGrid g => mkPolyData (ug_Points g) [] [] [] [] []
              end)
    (fun _ m => m) decimate decimate (fun _ m => m) (fun _ m => m)
    EvaluateFunction.

(** The minimal standard generator: [seed <- 16807 * seed mod (2^31 - 1)]. *)
Definition random_sequence : RandomSequence :=
  mkRandomSequence Z 1043618065%Z
    (fun seed => (16807 * seed) mod 2147483647)%Z
    (fun seed low high =>
       low + (Double.of_count seed / 2147483647) * (high - low)).

(** The fractional parts of the square roots of 2, 3 and 5. *)
Definition constants : AdditiveRecurrence.constants :=
  AdditiveRecurrence.mkConstants
    [0.41421356237309515; 0.7320508075688772; 0.2360679774997898]
    [0; 0; 0].

(** An octahedron with its faces oriented outward. *)
Definition octahedron : vtkPolyData :=
  mkPolyData
    [ (1, 0, 0); (-1, 0, 0); (0, 1, 0); (0, -1, 0); (0, 0, 1); (0, 0, -1) ]
    [] []
    [ [0; 2; 4]; [0; 5; 2]; [0; 4; 3]; [0; 3; 5];
      [1; 4; 2]; [1; 2; 5]; [1; 3; 4]; [1; 5; 3] ]%Z
    [] [].

(** The unit square, as one quadrilateral. *)
Definition square : vtkPolyData :=
  mkPolyData [ (0, 0, 0); (1, 0, 0); (1, 1, 0); (0, 1, 0) ]
             [] [] [ [0; 1; 2; 3] ]%Z [] [].

(** The points of the octahedron with [n] copies of its first face. *)
Definition many_faces (n : nat) : vtkPolyData :=
  mkPolyData (Points octahedron) [] [] (repeat [0; 2; 4]%Z n) [] [].

(** The points of the octahedron without any face. *)
Definition no_face : vtkPolyData :=
  mkPolyData (Points octahedron) [] [] [] [] [].

(** A parameter set that gives every double parameter the value [d],
    every integer parameter the value [n] and every flag the value [b]. *)
Definition params (d : float) (n : Z) (b : bool) : OfxParamSet :=
  mkParamSet (fun _ => n) (fun _ => d) (fun _ => b) (fun _ => (n, n, n)).

End Reference.

(** ** Notions the statements use *)

(** The integer nearest to the square root of [n] (a half goes up): the
    [round(sqrt(n))] of the specification. *)
Definition round_sqrt (n : Z) : Z := (Z.sqrt (4 * n) + 1) / 2.

(** The target face count as the specification words it. *)
Definition target_polycount_as_specified (n : Z) : Z := 1000 + round_sqrt n.

(** [P] holds of 0, 1, ..., n - 1. *)
Definition all_below (P : Z -> bool) (n : N) : bool :=
  fst (N.iter n (fun '(ok, k) => (P k && ok, k + 1)) (true, 0)).


(** The identity checks that compare a double parameter with
    [DBL_EPSILON], each with the name of its parameter. *)
Definition double_identity_checks : list (Effect * string) :=
  [ (VtkDecimateProEffect, "TargetReduction"%string);
    (VtkQuadricDecimationEffect, "TargetReduction"%string);
    (VtkFillHolesEffect, "HoleSize"%string) ].


(** ** The parameter declarations ([vtkDescribe]) *)

(** A default or a bound as it is written in a declaration. *)
Inductive Literal : Type :=
| LitInt (z : Z)
| LitDouble (d : float)
| LitBool (b : bool)
| LitInt3 (a b c : Z).

Inductive Kind : Type := Integer | Double_ | Boolean | IntegerTriple.

(** [AddParam(name, default)] declares a parameter of the type of
    [default]. *)
Definition kind_of (l : Literal) : Kind :=
  match l with
  | LitInt _ => Integer
  | LitDouble _ => Double_
  | LitBool _ => Boolean
  | LitInt3 _ _ _ => IntegerTriple
  end.

(** What one [AddParam(...).Range(...).Label(...)] chain declares. *)
Record ParamDef : Type := mkParamDef {
  pd_name : string;
  pd_default : Literal;
  pd_range : option (Literal * Literal);
  pd_label : string
}.

Definition AddParam (name : string) (default : Literal) : ParamDef :=
  mkParamDef name default None "".
Definition Range (minimum maximum : Literal) (p : ParamDef) : ParamDef :=
  mkParamDef (pd_name p) (pd_default p) (Some (minimum, maximum)) (pd_label p).
Definition Label (label : string) (p : ParamDef) : ParamDef :=
  mkParamDef (pd_name p) (pd_default p) (pd_range p) label.

Module Describe.

Local Open Scope string_scope.
Local Notation "p '.>' f" := (f p) (at level 50, left associativity, only parsing).
Local Notation "'int' z" := (LitInt z) (at level 9, z at level 9, only parsing).
Local Notation "'dbl' d" := (LitDouble d%float) (at level 9, d at level 9, only parsing).
Local Notation "'flag' b" := (LitBool b) (at level 9, b at level 9, only parsing).

(** Lines 76-85. *)
Definition Smooth : list ParamDef :=
  [ AddParam "NumberOfIterations" (int 20) .> Range (int 1) (int 1000) .> Label "Iterations";
    AddParam "RelaxationFactor" (dbl 0.1) .> Range (dbl 0.0) (dbl 1000.0) .> Label "Relaxation factor";
    AddParam "BoundarySmoothing" (flag true) .> Label "Boundary smoothing";
    AddParam "FeatureEdgeSmoothing" (flag false) .> Label "Feature edge smoothing";
    AddParam "FeatureAngle" (dbl 45.0) .> Range (dbl 0.001) (dbl 180.0) .> Label "Feature angle";
    AddParam "EdgeAngle" (dbl 15.0) .> Range (dbl 0.001) (dbl 180.0) .> Label "Edge angle";
    AddParam "Convergence" (dbl 0.0) .> Range (dbl 0.0) (dbl 1000.0) .> Label "Convergence" ].

(** Lines 133-143. *)
Definition WindowedSinc : list ParamDef :=
  [ AddParam "NumberOfIterations" (int 20) .> Range (int 1) (int 1000) .> Label "Iterations";
    AddParam "PassBand" (dbl 0.1) .> Range (dbl 0.001) (dbl 2.0) .> Label "Passband";
    AddParam "BoundarySmoothing" (flag true) .> Label "Boundary smoothing";
    AddParam "NonManifoldSmoothing" (flag false) .> Label "Non-manifold smoothing";
    AddParam "FeatureEdgeSmoothing" (flag false) .> Label "Feature edge smoothing";
    AddParam "FeatureAngle" (dbl 45.0) .> Range (dbl 0.001) (dbl 180.0) .> Label "Feature angle";
    AddParam "EdgeAngle" (dbl 15.0) .> Range (dbl 0.001) (dbl 180.0) .> Label "Edge angle";
    AddParam "NormalizeCoordinates" (flag true) .> Label "Normalize coordinates" ].

(** Lines 191-199. *)
Definition PointSampler : list ParamDef :=
  [ AddParam "Distance" (dbl 0.1) .> Range (dbl 1e-6) (dbl 1e6) .> Label "Distance";
    AddParam "GenerateEdgePoints" (flag true) .> Label "Generate edge points";
    AddParam "GenerateInteriorPoints" (flag true) .> Label "Generate interior points";
    AddParam "InterpolatePointData" (flag false) .> Label "Interpolate point data" ].

(** Lines 260-266. *)
Definition VolumePointSampler : list ParamDef :=
  [ AddParam "NumberOfPoints" (int 200) .> Range (int 1) (dbl 1e6) .> Label "Number of points";
    AddParam "DistributeUniformly" (flag true) .> Label "Distribute points uniformly";
    AddParam "AutoSimplify" (flag true) .> Label "Auto simplify input mesh" ].

(** Lines 381-388. *)
Definition MaskPoints : list ParamDef :=
  [ AddParam "RandomMode" (flag true) .> Label "Use point selection";
    AddParam "RandomModeType" (int 0) .> Range (int 0) (int 3) .> Label "Random distribution type";
    AddParam "OnRatio" (int 2) .> Label "Take every n-th point";
    AddParam "MaximumNumberOfPoints" (int 10000) .> Range (int 0) (int 10000000)
      .> Label "Maximum number of points" ].

(** Lines 432-439. *)
Definition FeatureEdges : list ParamDef :=
  [ AddParam "FeatureAngle" (int 30) .> Range (dbl 1e-6) (dbl 180.0) .> Label "Feature angle";
    AddParam "FeatureEdges" (flag true) .> Label "Extract feature edges";
    AddParam "BoundaryEdges" (flag false) .> Label "Extract boundary edges";
    AddParam "NonManifoldEdges" (flag false) .> Label "Extract non-manifold edges";
    AddParam "ManifoldEdges" (flag false) .> Label "Extract manifold edges" ].

(** Lines 485-494. *)
Definition Delaunay3D : list ParamDef :=
  [ AddParam "ExtractSurface" (flag false) .> Label "Extract boundary faces (convex hull)";
    AddParam "ExtractWireframe" (flag true) .> Label "Extract tetrahedral edges" ].

(** Lines 552-559. *)
Definition TubeFilter : list ParamDef :=
  [ AddParam "Radius" (dbl 0.05) .> Range (dbl 1e-6) (dbl 1e6) .> Label "Radius";
    AddParam "NumberOfSides" (int 6) .> Range (int 3) (int 1000) .> Label "Number of sides";
    AddParam "Capping" (flag true) .> Label "Cap ends" ].

(** Lines 626-638. *)
Definition DecimatePro : list ParamDef :=
  [ AddParam "TargetReduction" (dbl 0.8) .> Range (int 0) (dbl (1 - 1e-6)) .> Label "Target reduction";
    AddParam "PreserveTopology" (flag false) .> Label "Preserve topology";
    AddParam "FeatureAngle" (dbl 15.0) .> Range (dbl 0.001) (dbl 180.0) .> Label "Feature angle";
    AddParam "Splitting" (flag true) .> Label "Allow splitting";
    AddParam "SplitAngle" (dbl 45.0) .> Range (dbl 0.001) (dbl 180.0) .> Label "Split angle";
    AddParam "MaximumError" (dbl 0.01) .> Range (int 0) (dbl 1e6) .> Label "Maximum error";
    AddParam "AbsoluteError" (flag false) .> Label "Use absolute error";
    AddParam "BoundaryVertexDeletion" (flag true) .> Label "Allow boundary vertex deletion";
    AddParam "InflectionPointRatio" (dbl 10.0) .> Range (dbl 1.001) (dbl 1e6)
      .> Label "Inflection point ratio";
    AddParam "Degree" (int 25) .> Range (int 3) (int 1000) .> Label "Maximum degree of vertex" ].

(** Lines 695-699. *)
Definition QuadricDecimation : list ParamDef :=
  [ AddParam "TargetReduction" (dbl 0.8) .> Range (int 0) (dbl (1 - 1e-6)) .> Label "Target reduction";
    AddParam "PreserveTopology" (flag false) .> Label "Preserve volume" ].

(** Lines 789-795. *)
Definition QuadricClustering : list ParamDef :=
  [ AddParam "NumberOfDivisions" (LitInt3 256 256 256)
      .> Range (LitInt3 2 2 2) (LitInt3 65535 65535 65535) .> Label "Number of divisions";
    AddParam "AutoAdjustNumberOfDivisions" (flag true) .> Label "Auto adjust number of divisions" ].

(** Lines 825-828. *)
Definition FillHoles : list ParamDef :=
  [ AddParam "HoleSize" (dbl 1.0) .> Range (int 0) (dbl 1e6) .> Label "Maximum hole size" ].

(** Lines 862-865. *)
Definition Identity : list ParamDef :=
  [ AddParam "ActionIsIdentity" (flag false) .> Label "kOfxMeshEffectActionIsIdentity" ].

End Describe.

(** [vtkDescribe]: the status it returns and the parameters it declares,
    in order. *)
Definition vtkDescribe (e : Effect) : OfxStatus * list ParamDef :=
  (kOfxStatOK,
   match e with
   | VtkSmoothPolyDataFilterEffect => Describe.Smooth
   | VtkWindowedSincPolyDataFilterEffect => Describe.WindowedSinc
   | VtkPolyDataPointSamplerEffect => Describe.PointSampler
   | VtkMaskPointsEffect => Describe.MaskPoints
   | VtkFeatureEdgesEffect => Describe.FeatureEdges
   | VtkVolumePointSamplerEffect => Describe.VolumePointSampler
   | VtkDelaunay3DEffect => Describe.Delaunay3D
   | VtkFillHolesEffect => Describe.FillHoles
   | VtkTubeFilterEffect => Describe.TubeFilter
   | VtkQuadricDecimationEffect => Describe.QuadricDecimation
   | VtkDecimateProEffect => Describe.DecimatePro
   | VtkQuadricClusteringEffect => Describe.QuadricClustering
   | VtkIdentityEffect => Describe.Identity
   end).

Definition declared (e : Effect) : list ParamDef := snd (vtkDescribe e).
Definition declared_names (e : Effect) : list string := map pd_name (declared e).

(** ** Notions the further statements use *)

(** The value of a literal as a double, for a comparison. *)
Definition literal_value (l : Literal) : option float :=
  match l with
  | LitInt z => Some (if z <? 0 then (- Double.of_count (- z))%float else Double.of_count z)
  | LitDouble d => Some d
  | _ => None
  end.

(** [a <= b], for two numbers or two triples. *)
Definition literal_le (a b : Literal) : bool :=
  match a, b with
  | LitInt3 a0 a1 a2, LitInt3 b0 b1 b2 => (a0 <=? b0) && (a1 <=? b1) && (a2 <=? b2)
  | _, _ =>
      match literal_value a, literal_value b with
      | Some x, Some y => (x <=? y)%float
      | _, _ => false
      end
  end.

(** The default of a declaration lies in its range, if it has one. *)
Definition default_in_range (p : ParamDef) : bool :=
  match pd_range p with
  | Some (minimum, maximum) =>
      literal_le minimum (pd_default p) && literal_le (pd_default p) maximum
  | None => true
  end.

(** The strings of a list are pairwise different. *)
Fixpoint distinct (l : list string) : bool :=
  match l with
  | [] => true
  | x :: l' => negb (existsb (String.eqb x) l') && distinct l'
  end.

(** Two parameter sets hold the same values under [name], of every kind. *)
Definition agree_at (ps1 ps2 : OfxParamSet) (name : string) : Prop :=
  param_int ps1 name = param_int ps2 name /\
  param_double ps1 name = param_double ps2 name /\
  param_bool ps1 name = param_bool ps2 name /\
  param_int3 ps1 name = param_int3 ps2 name.

(** Two parameter sets hold the same value for the declaration [p], under
    the kind it is declared with. *)
Definition agree_on (ps1 ps2 : OfxParamSet) (p : ParamDef) : Prop :=
  match kind_of (pd_default p) with
  | Integer => param_int ps1 (pd_name p) = param_int ps2 (pd_name p)
  | Double_ => param_double ps1 (pd_name p) = param_double ps2 (pd_name p)
  | Boolean => param_bool ps1 (pd_name p) = param_bool ps2 (pd_name p)
  | IntegerTriple => param_int3 ps1 (pd_name p) = param_int3 ps2 (pd_name p)
  end.



(** A loop state without the state of the additive recurrence. *)
Definition erase_custom {R : RandomSequence} (s : VolumePointSampler.LoopState R)
  : Z * Z * list Point * list float * rs_state R :=
  (VolumePointSampler.i s, VolumePointSampler.iteration_count s,
   VolumePointSampler.points s, VolumePointSampler.distance_arr s,
   VolumePointSampler.random_generator_vtk (VolumePointSampler.generators s)).

(** Before each attempt that the state [s] counts, fewer than
    [number_of_points] candidates had been accepted. *)
Definition never_beyond (K : Kernel) (R : RandomSequence) (C : AdditiveRecurrence.constants)
    (distribute_uniformly : bool) (bounds : Bounds) (distance_mesh : vtkPolyData)
    (number_of_points : Z) (g0 : VolumePointSampler.Generators R)
    (s : VolumePointSampler.LoopState R) : Prop :=
  forall n : nat,
    (n < VolumePointSampler.attempts s)%nat ->
    Z.of_nat (length (VolumePointSampler.accepted K R C distribute_uniformly bounds
                        distance_mesh n g0)) < number_of_points.

(** * Properties *)

(** ** Machine integers *)

Module IntFacts.

Lemma wrap_small (z : Z) : Int.INT_MIN <= z <= Int.INT_MAX -> Int.wrap z = z.
Proof.
  unfold Int.INT_MIN, Int.INT_MAX, Int.wrap.
  change (2 ^ 31) with 2147483648. change (2 ^ 32) with 4294967296.
  intros H. rewrite Z.mod_small; lia.
Qed.

Lemma wrap_range (z : Z) : Int.INT_MIN <= Int.wrap z <= Int.INT_MAX.
Proof.
  unfold Int.INT_MIN, Int.INT_MAX, Int.wrap.
  change (2 ^ 31) with 2147483648. change (2 ^ 32) with 4294967296.
  pose proof (Z.mod_pos_bound (z + 2147483648) 4294967296). lia.
Qed.


End IntFacts.

(** ** The rejection loop *)

Module LoopFacts.

Import VolumePointSampler.

Section Loop.

Context (K : Kernel) (R : RandomSequence) (C : AdditiveRecurrence.constants).
Variables (N : Z) (du : bool) (bounds : Bounds) (dm : vtkPolyData).

Local Abbreviation loop := (rejection_loop K R C N du bounds dm).
Local Abbreviation body := (loop_body K R C du bounds dm).
Local Abbreviation cond := (loop_condition N).

Lemma unfold (s : LoopState R) :
  loop s = if cond s then loop (body s) else s.
Proof.
  funelim (rejection_loop K R C N du bounds dm s).
  - rewrite e. reflexivity.
  - rewrite e. reflexivity.
Qed.

(** A property that the body preserves while the condition holds is true
    of the state in which the loop is left, where the condition fails. *)
Lemma invariant (P : LoopState R -> Prop) :
  (forall s, P s -> cond s = true -> P (body s)) ->
  forall s, P s -> P (loop s) /\ cond (loop s) = false.
Proof.
  intros Hstep s.
  funelim (rejection_loop K R C N du bounds dm s); intros HP.
  - apply H; auto.
  - split; auto.
Qed.

(** The body, case by case. *)
Lemma body_inside (s : LoopState R) p d g :
  draw K R C du bounds dm (generators s) = (p, d, g) ->
  inside (p, d) = true ->
  body s = mkLoopState (Int.add (i s) 1) (Int.add (iteration_count s) 1)
             (SetPoint (i s) p (points s))
             (SetValue (i s) d (distance_arr s)) g.
Proof.
  unfold loop_body, inside. intros -> Hd. simpl in Hd. rewrite Hd. reflexivity.
Qed.

Lemma body_outside (s : LoopState R) p d g :
  draw K R C du bounds dm (generators s) = (p, d, g) ->
  inside (p, d) = false ->
  body s = mkLoopState (i s) (Int.add (iteration_count s) 1)
             (points s) (distance_arr s) g.
Proof.
  unfold loop_body, inside. intros -> Hd. simpl in Hd. rewrite Hd. reflexivity.
Qed.

Local Abbreviation gen_after := (generators_after K R C du bounds dm).
Local Abbreviation cands := (candidates K R C du bounds dm).
Local Abbreviation acc := (accepted K R C du bounds dm).

Lemma candidates_S (n : nat) (g : Generators R) :
  cands (S n) g = cands n g ++ [candidate K R C du bounds dm g n].
Proof.
  unfold candidates. rewrite seq_S, map_app. reflexivity.
Qed.

Lemma accepted_S (n : nat) (g : Generators R) :
  acc (S n) g =
  acc n g ++ (if inside (candidate K R C du bounds dm g n)
              then [candidate K R C du bounds dm g n] else []).
Proof.
  unfold accepted. rewrite candidates_S, List.filter_app. reflexivity.
Qed.

Lemma length_candidates (n : nat) (g : Generators R) : length (cands n g) = n.
Proof. unfold candidates. rewrite length_map, length_seq. reflexivity. Qed.

Lemma length_accepted_le (n : nat) (g : Generators R) : (length (acc n g) <= n)%nat.
Proof.
  unfold accepted.
  pose proof (List.filter_length_le inside (cands n g)) as H.
  rewrite length_candidates in H. exact H.
Qed.

Lemma accepted_inside (n : nat) (g : Generators R) :
  Forall (fun c => inside c = true) (acc n g).
Proof.
  unfold accepted. apply List.Forall_forall. intros c Hc.
  apply List.filter_In in Hc. tauto.
Qed.

Lemma accepted_mono (n m : nat) (g : Generators R) :
  (n <= m)%nat -> (length (acc n g) <= length (acc m g))%nat.
Proof.
  induction 1 as [|m Hle IH]; [lia|].
  rewrite accepted_S, length_app. lia.
Qed.



Hypothesis N_int : 0 <= N <= Int.INT_MAX.

Lemma run_invariant_initial (g0 : Generators R) :
  run_invariant K R C du bounds dm N g0
    (mkLoopState 0 0 (SetNumberOfPoints N []) (SetNumberOfTuples N []) g0).
Proof.
  split; simpl; try reflexivity; try lia.
  - apply length_resize.
  - apply length_resize.
Qed.

Lemma run_invariant_step (g0 : Generators R) (s : LoopState R) :
  run_invariant K R C du bounds dm N g0 s -> cond s = true -> run_invariant K R C du bounds dm N g0 (body s).
Proof.
  intros [Ht Hg Hi Hle Hlp Hld Hp Hd] Hc.
  unfold loop_condition in Hc. apply andb_prop in Hc as [HiN HtL].
  apply Z.ltb_lt in HiN. apply Z.ltb_lt in HtL.
  pose proof (IntFacts.wrap_range (10 * N)) as HL. fold (Int.mul 10 N) in HL.
  unfold Int.INT_MIN, Int.INT_MAX in *.
  assert (Ht1 : Int.add (iteration_count s) 1 = iteration_count s + 1).
  { apply IntFacts.wrap_small. unfold Int.INT_MIN, Int.INT_MAX. lia. }
  assert (Hi1 : Int.add (i s) 1 = i s + 1).
  { apply IntFacts.wrap_small. unfold Int.INT_MIN, Int.INT_MAX. lia. }
  assert (HS : Z.to_nat (iteration_count s + 1) = S (attempts s)).
  { unfold attempts. lia. }
  destruct (draw K R C du bounds dm (generators s)) as [[p d] g] eqn:Hdraw.
  assert (Hcand : candidate K R C du bounds dm g0 (attempts s) = (p, d)).
  { unfold candidate. rewrite <- Hg, Hdraw. reflexivity. }
  assert (Hgen : gen_after (S (attempts s)) g0 = g).
  { simpl. rewrite <- Hg, Hdraw. reflexivity. }
  destruct (inside (p, d)) eqn:Hin.
  - rewrite (body_inside s p d g Hdraw Hin).
    assert (Hacc : acc (S (attempts s)) g0 = acc (attempts s) g0 ++ [(p, d)]).
    { rewrite accepted_S, Hcand, Hin. reflexivity. }
    assert (Hn : Z.to_nat (i s) = length (acc (attempts s) g0)) by lia.
    split; simpl; unfold attempts; simpl; rewrite ?Ht1, ?Hi1, ?HS.
    + lia.
    + symmetry. exact Hgen.
    + rewrite Hacc, length_app. simpl. lia.
    + lia.
    + unfold SetPoint. rewrite length_insert. exact Hlp.
    + unfold SetValue. rewrite length_insert. exact Hld.
    + rewrite Hacc, map_app. simpl. rewrite <- Hp.
      replace (Z.to_nat (i s + 1)) with (S (Z.to_nat (i s))) by lia.
      unfold SetPoint.
      rewrite (take_S_r _ _ p).
      * rewrite take_insert_ge by lia. reflexivity.
      * apply list_lookup_insert_eq. lia.
    + rewrite Hacc, map_app. simpl. rewrite <- Hd.
      replace (Z.to_nat (i s + 1)) with (S (Z.to_nat (i s))) by lia.
      unfold SetValue.
      rewrite (take_S_r _ _ d).
      * rewrite take_insert_ge by lia. reflexivity.
      * apply list_lookup_insert_eq. lia.
  - rewrite (body_outside s p d g Hdraw Hin).
    assert (Hacc : acc (S (attempts s)) g0 = acc (attempts s) g0).
    { rewrite accepted_S, Hcand, Hin. apply app_nil_r. }
    split; simpl; unfold attempts; simpl; rewrite ?Ht1, ?HS, ?Hacc; auto.
    lia.
Qed.

(** The state in which the loop is left, for a run from [g0]. *)
Lemma run_invariant_final (g0 : Generators R) :
  let s := loop (mkLoopState 0 0 (SetNumberOfPoints N []) (SetNumberOfTuples N []) g0) in
  run_invariant K R C du bounds dm N g0 s /\ cond s = false.
Proof.
  apply (invariant (run_invariant K R C du bounds dm N g0)).
  - apply run_invariant_step.
  - apply run_invariant_initial.
Qed.

End Loop.

End LoopFacts.

(** ** The volume sampler *)

Module SamplerFacts.

Import VolumePointSampler LoopFacts.

Lemma GetArray_AddArray (m : vtkPolyData) (name : string) (arr : list float) :
  GetArray name (AddArray m name arr) = Some arr.
Proof.
  unfold GetArray, AddArray. simpl.
  induction (PointData m) as [|[n a] l IH]; simpl.
  - rewrite String.eqb_refl. reflexivity.
  - destruct (String.eqb n name) eqn:E; simpl.
    + rewrite String.eqb_refl. reflexivity.
    + rewrite E. exact IH.
Qed.

Lemma Points_AddArray_SetPoints (m : vtkPolyData) (pts : list Point) name arr :
  Points (AddArray (SetPoints m pts) name arr) = pts.
Proof. reflexivity. Qed.

Lemma Cells_AddArray_SetPoints (m : vtkPolyData) (pts : list Point) name arr :
  Cells (AddArray (SetPoints m pts) name arr) = Cells m.
Proof. reflexivity. Qed.

Section Sampler.

Context (K : Kernel) (R : RandomSequence) (C : AdditiveRecurrence.constants).
Variables (inp out : vtkPolyData).
Variables (N : Z) (du auto_simplify assume_triangles : bool).

Local Abbreviation bounds := (GetBounds K inp).
Local Abbreviation dm := (distance_input K inp auto_simplify assume_triangles).
Local Abbreviation g0 := (initial_generators R C).
Local Abbreviation s := (sampling_loop K R C inp N du auto_simplify assume_triangles).
Local Abbreviation r :=
  (vtkCook_inner K R C inp out N du auto_simplify assume_triangles).
Local Abbreviation acc := (accepted K R C du bounds dm).



(** Without an attempt the loop is left as it is entered. *)
Lemma not_entered :
  N <= 0 ->
  s = mkLoopState 0 0 (SetNumberOfPoints N []) (SetNumberOfTuples N []) g0.
Proof.
  intros HN. unfold sampling_loop. rewrite LoopFacts.unfold.
  unfold loop_condition. simpl.
  destruct (0 <? N) eqn:E; [apply Z.ltb_lt in E; lia | reflexivity].
Qed.

Section InRange.

Hypothesis N_int : 0 <= N <= Int.INT_MAX.

Lemma final_state : run_invariant K R C du bounds dm N g0 s /\ loop_condition N s = false.
Proof. apply run_invariant_final. exact N_int. Qed.


(** The arrays of the output are the accepted candidates, in the order
    in which they were drawn. *)
Lemma cook_points :
  Points (output_polydata r) = map fst (acc (attempts s) g0).
Proof.
  destruct final_state as [[Ht Hg Hi Hle Hlp Hld Hp Hd] Hc].
  unfold vtkCook_inner. destruct (i s <? N) eqn:E; simpl.
  - apply Z.ltb_lt in E. unfold SetNumberOfPoints.
    rewrite resize_le by lia. exact Hp.
  - apply Z.ltb_ge in E. rewrite <- Hp.
    rewrite firstn_all2 by lia. reflexivity.
Qed.

Lemma cook_distances :
  GetArray "distance" (output_polydata r) = Some (map snd (acc (attempts s) g0)).
Proof.
  destruct final_state as [[Ht Hg Hi Hle Hlp Hld Hp Hd] Hc].
  unfold vtkCook_inner. destruct (i s <? N) eqn:E; simpl;
    rewrite GetArray_AddArray; f_equal.
  - apply Z.ltb_lt in E. unfold SetNumberOfTuples.
    rewrite resize_le by lia. exact Hd.
  - apply Z.ltb_ge in E. rewrite <- Hd.
    rewrite firstn_all2 by lia. reflexivity.
Qed.

End InRange.

End Sampler.

End SamplerFacts.

(** ** The result of the rejection loop *)

Section SamplerClaims.

Import VolumePointSampler.

Context (K : Kernel) (R : RandomSequence) (C : AdditiveRecurrence.constants).



(** C6: for [N = 0] the cook returns [kOfxStatOK] with an empty point
    sequence and an empty distance array; the loop makes no attempt, no
    candidate is drawn and nothing is printed. *)
Theorem zero_points_requested (inp out : vtkPolyData)
    (distribute_uniformly auto_simplify assume_triangles : bool) :
  let s := sampling_loop K R C inp 0 distribute_uniformly auto_simplify assume_triangles in
  let r := vtkCook_inner K R C inp out 0 distribute_uniformly auto_simplify assume_triangles in
  Points (output_polydata r) = [] /\
  GetArray "distance" (output_polydata r) = Some [] /\
  status r = kOfxStatOK /\
  stdout r = [] /\
  iteration_count s = 0 /\ i s = 0 /\
  generators s = initial_generators R C.
Proof.
  intros s r.
  assert (Hs : s = mkLoopState 0 0 [] [] (initial_generators R C)).
  { unfold s. rewrite SamplerFacts.not_entered by lia. reflexivity. }
  unfold r, vtkCook_inner. fold s. rewrite Hs. simpl.
  rewrite SamplerFacts.GetArray_AddArray. repeat split; reflexivity.
Qed.

End SamplerClaims.

Section SamplerClaims2.

Import VolumePointSampler.

Context (K : Kernel) (R : RandomSequence) (C : AdditiveRecurrence.constants).



End SamplerClaims2.

(** ** Reproducibility *)

Module Determinism.

Import VolumePointSampler.

Section TwoSequences.

Context (K : Kernel) (C : AdditiveRecurrence.constants) (R1 R2 : RandomSequence).
Variables (N : Z) (bounds : Bounds) (dm : vtkPolyData).

Lemma draw_uniform (g1 : Generators R1) (g2 : Generators R2) :
  random_generator_custom g1 = random_generator_custom g2 ->
  fst (draw K R1 C true bounds dm g1) = fst (draw K R2 C true bounds dm g2) /\
  random_generator_custom (snd (draw K R1 C true bounds dm g1)) =
  random_generator_custom (snd (draw K R2 C true bounds dm g2)).
Proof.
  intros H. unfold draw, get_random_uniform.
  destruct bounds as [[[[[b0 b1] b2] b3] b4] b5]. simpl. rewrite H. split; reflexivity.
Qed.

Lemma body_uniform (s1 : LoopState R1) (s2 : LoopState R2) :
  erase s1 = erase s2 ->
  erase (loop_body K R1 C true bounds dm s1) = erase (loop_body K R2 C true bounds dm s2).
Proof.
  unfold erase. intros H. injection H as Hi Ht Hp Hd Hg.
  destruct (draw_uniform (generators s1) (generators s2) Hg) as [Hfst Hsnd].
  unfold loop_body.
  destruct (draw K R1 C true bounds dm (generators s1)) as [[p1 d1] g1].
  destruct (draw K R2 C true bounds dm (generators s2)) as [[p2 d2] g2].
  simpl in Hfst, Hsnd. injection Hfst as -> ->.
  destruct (d2 <? 0)%float; simpl; congruence.
Qed.

Lemma condition_uniform (s1 : LoopState R1) (s2 : LoopState R2) :
  erase s1 = erase s2 -> loop_condition N s1 = loop_condition N s2.
Proof.
  unfold erase, loop_condition. intros H. injection H as -> -> _ _ _. reflexivity.
Qed.

Lemma loop_uniform (du : bool) (s1 : LoopState R1) :
  du = true ->
  forall s2 : LoopState R2,
    erase s1 = erase s2 ->
    erase (rejection_loop K R1 C N du bounds dm s1) =
    erase (rejection_loop K R2 C N du bounds dm s2).
Proof.
  funelim (rejection_loop K R1 C N du bounds dm s1); intros -> s2 He.
  - rewrite (LoopFacts.unfold K R2 C _ _ _ _ s2).
    rewrite <- (condition_uniform _ _ He), e.
    apply H; [reflexivity|]. apply body_uniform. exact He.
  - rewrite (LoopFacts.unfold K R2 C _ _ _ _ s2).
    rewrite <- (condition_uniform _ _ He), e. exact He.
Qed.

End TwoSequences.

End Determinism.

(** C7: with [distribute_uniformly] the candidates come from the additive
    recurrence alone, which starts from the same state in every run: the
    result of the cook (the points and the distances of the output, bit
    for bit) is the same whatever the pseudo-random sequence of the run
    is. *)
Theorem uniform_sampling_is_reproducible (K : Kernel)
    (C : AdditiveRecurrence.constants) (R1 R2 : RandomSequence)
    (inp out : vtkPolyData) (N : Z) (auto_simplify assume_triangles : bool) :
  VolumePointSampler.vtkCook_inner K R1 C inp out N true auto_simplify assume_triangles =
  VolumePointSampler.vtkCook_inner K R2 C inp out N true auto_simplify assume_triangles.
Proof.
  unfold VolumePointSampler.vtkCook_inner.
  assert (H : VolumePointSampler.erase
                (VolumePointSampler.sampling_loop K R1 C inp N true auto_simplify assume_triangles) =
              VolumePointSampler.erase
                (VolumePointSampler.sampling_loop K R2 C inp N true auto_simplify assume_triangles)).
  { unfold VolumePointSampler.sampling_loop.
    apply Determinism.loop_uniform; reflexivity. }
  unfold VolumePointSampler.erase in H. injection H as Hi Ht Hp Hd _.
  rewrite Hi, Ht, Hp, Hd. reflexivity.
Qed.

(** ** Doubles *)

Module DoubleFacts.

Lemma SFcompare_antisym (a b : spec_float) :
  SFcompare b a = option_map CompOpp (SFcompare a b).
Proof.
  destruct a as [sa|sa| |sa ma ea], b as [sb|sb| |sb mb eb]; simpl;
    try reflexivity; try (destruct sa; reflexivity); try (destruct sb; reflexivity);
    try (destruct sa, sb; reflexivity).
  destruct sa, sb; simpl; try reflexivity.
  - rewrite (Z.compare_antisym eb ea). destruct (eb ?= ea); simpl; try reflexivity.
    pose proof (Pos.compare_cont_antisym mb ma Eq) as H. simpl in H.
    rewrite CompOpp_involutive. f_equal. exact H.
  - rewrite (Z.compare_antisym eb ea). destruct (eb ?= ea); simpl; try reflexivity.
    pose proof (Pos.compare_cont_antisym ma mb Eq) as H. simpl in H.
    f_equal. symmetry. exact H.
Qed.

(** [x < y] excludes [y <= x]. *)
Lemma ltb_leb_false (x y : float) :
  (x <? y)%float = true -> (y <=? x)%float = false.
Proof.
  rewrite FloatAxioms.ltb_spec, FloatAxioms.leb_spec.
  unfold SFltb, SFleb. rewrite (SFcompare_antisym (Prim2SF x) (Prim2SF y)).
  destruct (SFcompare (Prim2SF x) (Prim2SF y)) as [[]|]; simpl; congruence.
Qed.

(** A negative double is below every positive one. *)
Lemma negative_below (x y : float) :
  (x <? 0)%float = true -> (0 <? y)%float = true -> (y <=? x)%float = false.
Proof.
  rewrite !FloatAxioms.ltb_spec, FloatAxioms.leb_spec.
  change (Prim2SF 0) with (S754_zero false).
  unfold SFltb, SFleb.
  destruct (Prim2SF x) as [sx|sx| |sx mx ex], (Prim2SF y) as [sy|sy| |sy my ey];
    simpl; try discriminate;
    try (destruct sx; discriminate); try (destruct sy; discriminate);
    destruct sx, sy; simpl; try discriminate; reflexivity.
Qed.

Lemma all_below_spec (P : Z -> bool) (n : N) :
  all_below P n = true -> forall k, 0 <= k < Z.of_N n -> P k = true.
Proof.
  unfold all_below.
  assert (H : forall n,
             snd (N.iter n (fun '(ok, k) => (P k && ok, k + 1)) (true, 0)) = Z.of_N n /\
             (fst (N.iter n (fun '(ok, k) => (P k && ok, k + 1)) (true, 0)) = true ->
              forall k, 0 <= k < Z.of_N n -> P k = true)).
  { clear n. intros n. induction n as [|n [IHs IHf]] using N.peano_ind.
    - simpl. split; [reflexivity|]. intros _ k Hk. lia.
    - rewrite N.iter_succ.
      destruct (N.iter n _ _) as [ok j]. simpl in *. subst j. split; [lia|].
      intros Hok k Hk. apply andb_prop in Hok as [HP Hok].
      destruct (Z.eq_dec k (Z.of_N n)) as [->|Hne]; [exact HP|].
      apply IHf; [exact Hok | lia]. }
  apply H.
Qed.

(** Up to 65536 faces, the truncated square root of line 294 is the
    integer square root. *)
Lemma truncated_sqrt (n : Z) :
  0 <= n < 2 ^ 16 ->
  Double.truncate (PrimFloat.sqrt (Double.of_count n)) = Z.sqrt n.
Proof.
  intros Hn. apply Z.eqb_eq.
  apply (all_below_spec
           (fun n => Double.truncate (PrimFloat.sqrt (Double.of_count n)) =? Z.sqrt n)
           (2 ^ 16)%N); [vm_compute; reflexivity | exact Hn].
Qed.

End DoubleFacts.

(** ** The identity checks *)

(** C10: the identity checks of Decimate (pro), Decimate (quadric) and
    Fill holes answer [false] exactly when the parameter is at least
    [DBL_EPSILON]; they answer [true] for every value below
    [DBL_EPSILON], for every negative value, and for 1e-20 and 0. *)
Theorem identity_threshold_is_epsilon :
  Forall (fun en : Effect * string =>
            forall ps : OfxParamSet,
              let x := GetParam_double ps (snd en) in
              (isIdentity (fst en) ps = false <-> (Double.DBL_EPSILON <=? x)%float = true) /\
              ((x <? Double.DBL_EPSILON)%float = true -> isIdentity (fst en) ps = true) /\
              ((x <? 0)%float = true -> isIdentity (fst en) ps = true))
         double_identity_checks /\
  Forall (fun en : Effect * string =>
            isIdentity (fst en) (Reference.params 1e-20 0 false) = true /\
            isIdentity (fst en) (Reference.params 0 0 false) = true)
         double_identity_checks /\
  (0 <? 1e-20)%float = true.
Proof.
  assert (H : forall x : float,
             (negb (is_positive_double x) = false <-> (Double.DBL_EPSILON <=? x)%float = true) /\
             ((x <? Double.DBL_EPSILON)%float = true -> negb (is_positive_double x) = true) /\
             ((x <? 0)%float = true -> negb (is_positive_double x) = true)).
  { intros x. unfold is_positive_double. split; [|split].
    - destruct (Double.DBL_EPSILON <=? x)%float; simpl; split; congruence.
    - intros Hlt. rewrite (DoubleFacts.ltb_leb_false _ _ Hlt). reflexivity.
    - intros Hneg. rewrite (DoubleFacts.negative_below x Double.DBL_EPSILON Hneg);
        reflexivity. }
  split; [|split; [|reflexivity]].
  - unfold double_identity_checks.
    repeat (apply List.Forall_cons; [intros ps; apply H|]). apply List.Forall_nil.
  - unfold double_identity_checks.
    repeat (apply List.Forall_cons; [split; reflexivity|]). apply List.Forall_nil.
Qed.

(** ** The choice of the mesh for the distance *)

Section DistanceInput.

Import VolumePointSampler.

Context (K : Kernel).

Lemma distance_input_small (inp : vtkPolyData) (auto_simplify assume_triangles : bool) :
  GetNumberOfPolys inp <= 100 ->
  distance_input K inp auto_simplify assume_triangles = inp.
Proof.
  intros H. unfold distance_input.
  destruct (100 <? GetNumberOfPolys inp) eqn:E; [apply Z.ltb_lt in E; lia|].
  rewrite andb_false_r. reflexivity.
Qed.

Lemma distance_input_off (inp : vtkPolyData) (assume_triangles : bool) :
  distance_input K inp false assume_triangles = inp.
Proof. reflexivity. Qed.

Lemma distance_input_large (inp : vtkPolyData) (assume_triangles : bool) :
  100 < GetNumberOfPolys inp ->
  let tri := if assume_triangles then inp else vtkTriangleFilter K inp in
  let n := GetNumberOfPolys tri in
  distance_input K inp true assume_triangles =
  if (Double.of_count (target_polycount n) / Double.of_count n <? 1)%float
  then vtkQuadricDecimation K
         [("SetTargetReduction"%string,
           [ArgDouble (Double.of_count (target_polycount n) / Double.of_count n)])] tri
  else inp.
Proof.
  intros H. unfold distance_input.
  apply Z.ltb_lt in H. rewrite H. simpl.
  destruct assume_triangles; reflexivity.
Qed.

End DistanceInput.

(** C3, as the code has it: with [auto_simplify] the simplification is
    considered only for an input of more than 100 polygonal faces (with
    100 faces or fewer, or without [auto_simplify], the distance is that
    of the input as it is); the target face count is then 1000 plus the
    square root of the triangulated face count with its fractional part
    cut off (not rounded), and is computed before the mesh for the
    distance is chosen. *)
Theorem simplification_threshold_and_target (K : Kernel) (inp : vtkPolyData)
    (assume_triangles : bool) :
  (GetNumberOfPolys inp <= 100 ->
   forall auto_simplify,
     VolumePointSampler.distance_input K inp auto_simplify assume_triangles = inp) /\
  VolumePointSampler.distance_input K inp false assume_triangles = inp /\
  (100 < GetNumberOfPolys inp ->
   let tri := if assume_triangles then inp else vtkTriangleFilter K inp in
   let n := GetNumberOfPolys tri in
   let target_polycount := VolumePointSampler.target_polycount n in
   let target_reduction := (Double.of_count target_polycount / Double.of_count n)%float in
   target_polycount =
     Int.add 1000 (Double.truncate (PrimFloat.sqrt (Double.of_count n))) /\
   VolumePointSampler.distance_input K inp true assume_triangles =
     if (target_reduction <? 1)%float
     then vtkQuadricDecimation K
            [("SetTargetReduction"%string, [ArgDouble target_reduction])] tri
     else inp) /\
  (forall n, 0 <= n < 2 ^ 16 -> VolumePointSampler.target_polycount n = 1000 + Z.sqrt n).
Proof.
  split; [|split; [|split]].
  - intros H auto_simplify. apply distance_input_small. exact H.
  - apply distance_input_off.
  - intros H tri n tp tr. split; [reflexivity|].
    apply (distance_input_large K inp assume_triangles H).
  - intros n Hn. unfold VolumePointSampler.target_polycount.
    rewrite (DoubleFacts.truncated_sqrt n Hn).
    apply IntFacts.wrap_small.
    pose proof (Z.sqrt_nonneg n). 
    assert (Z.sqrt n <= n) by (apply Z.sqrt_le_lin; lia).
    unfold Int.INT_MIN, Int.INT_MAX.
    change (2 ^ 16) with 65536 in Hn. change (2 ^ 31) with 2147483648. lia.
Qed.

(** C3, as stated, fails on 1057 triangles: the code takes 1032 for the
    target and asks for the reduction 1032/1057, where the rounded square
    root gives 1033. *)
Lemma target_is_truncated_not_rounded :
  let inp := Reference.many_faces 1057 in
  let tri := vtkTriangleFilter Reference.kernel inp in
  GetNumberOfPolys inp = 1057 /\
  GetNumberOfPolys tri = 1057 /\
  VolumePointSampler.target_polycount (GetNumberOfPolys tri) = 1032 /\
  target_polycount_as_specified (GetNumberOfPolys tri) = 1033 /\
  VolumePointSampler.distance_input Reference.kernel inp true false =
    vtkQuadricDecimation Reference.kernel
      [("SetTargetReduction"%string, [ArgDouble (1032 / 1057)%float])] tri.
Proof. vm_compute. repeat split; reflexivity. Qed.

(** C4, on 4000 triangles: the target is 1063 faces, and the decimation
    is asked for the reduction 1063/4000, which is the share of the
    triangles to remove: 2937 faces are left. The reduction that leaves
    1063 faces is the complement, 1 - 1063/4000. *)
Lemma simplification_removes_the_target_share :
  let inp := Reference.many_faces 4000 in
  let simplified := VolumePointSampler.distance_input Reference.kernel inp true false in
  VolumePointSampler.target_polycount 4000 = 1063 /\
  simplified =
    vtkQuadricDecimation Reference.kernel
      [("SetTargetReduction"%string, [ArgDouble (1063 / 4000)%float])] inp /\
  GetNumberOfPolys simplified = 2937 /\
  Reference.decimated_count (1 - 1063 / 4000)%float 4000 = 1063.
Proof. vm_compute. repeat split; reflexivity. Qed.

(** ** Every effect of the registry *)

Section AllEffects.

Context (K : Kernel) (R : RandomSequence) (C : AdditiveRecurrence.constants).

Lemma registry_complete (e : Effect) : In e registry.
Proof. destruct e; simpl; tauto. Qed.




End AllEffects.






(** ** The rejection loop on the reference kernel *)




(** * Further properties *)

(** ** The sampler as a function of its candidates *)

Module SamplerSpec.

Import VolumePointSampler.

Section Spec.

Context (K : Kernel) (R : RandomSequence) (C : AdditiveRecurrence.constants).
Variables (N : Z) (du : bool) (bounds : Bounds) (dm : vtkPolyData).

Local Abbreviation acc := (accepted K R C du bounds dm).
Local Abbreviation body := (loop_body K R C du bounds dm).

(** The accepted candidates of fewer attempts are a prefix of those of
    more attempts. *)
Lemma accepted_split (g : Generators R) (n m : nat) :
  (n <= m)%nat -> exists rest, acc m g = acc n g ++ rest.
Proof.
  induction 1 as [|m Hle [rest IH]].
  - exists []. symmetry. apply app_nil_r.
  - rewrite LoopFacts.accepted_S, IH, <- app_assoc. eexists. reflexivity.
Qed.

Lemma iteration_count_body (s : LoopState R) :
  iteration_count (body s) = Int.add (iteration_count s) 1.
Proof.
  unfold loop_body. destruct (draw _ _ _ _ _ _ _) as [[p d] g].
  destruct (d <? 0)%float; reflexivity.
Qed.

Hypothesis N_int : 0 <= N <= Int.INT_MAX.

Lemma never_beyond_step (g0 : Generators R) (s : LoopState R) :
  run_invariant K R C du bounds dm N g0 s /\ never_beyond K R C du bounds dm N g0 s ->
  loop_condition N s = true ->
  run_invariant K R C du bounds dm N g0 (body s) /\ never_beyond K R C du bounds dm N g0 (body s).
Proof.
  intros [Hinv Hnb] Hc. split; [apply LoopFacts.run_invariant_step; assumption|].
  destruct Hinv as [Ht _ Hi _ _ _ _ _].
  unfold loop_condition in Hc. apply andb_prop in Hc as [HiN HtL].
  apply Z.ltb_lt in HiN. apply Z.ltb_lt in HtL.
  pose proof (IntFacts.wrap_range (10 * N)) as HL. fold (Int.mul 10 N) in HL.
  assert (Ht1 : Int.add (iteration_count s) 1 = iteration_count s + 1).
  { apply IntFacts.wrap_small. unfold Int.INT_MIN, Int.INT_MAX in *. lia. }
  intros n Hn. unfold attempts in Hn. rewrite iteration_count_body, Ht1 in Hn.
  destruct (Nat.eq_dec n (attempts s)) as [->|Hne].
  - lia.
  - apply Hnb. unfold attempts in *. lia.
Qed.

Lemma never_beyond_final (g0 : Generators R) :
  never_beyond K R C du bounds dm N g0
    (rejection_loop K R C N du bounds dm
       (mkLoopState 0 0 (SetNumberOfPoints N []) (SetNumberOfTuples N []) g0)).
Proof.
  apply (LoopFacts.invariant K R C N du bounds dm
           (fun s => run_invariant K R C du bounds dm N g0 s /\ never_beyond K R C du bounds dm N g0 s)).
  - apply never_beyond_step.
  - split; [apply LoopFacts.run_invariant_initial; exact N_int|].
    intros n Hn. unfold attempts in Hn. simpl in Hn. lia.
Qed.

End Spec.

End SamplerSpec.

Section SamplerExtras.

Import VolumePointSampler.

Context (K : Kernel) (R : RandomSequence) (C : AdditiveRecurrence.constants).

(** The candidates accepted when the loop is left are the first [N] of
    those among the first [10 * N] candidates that are inside. *)
Lemma accepted_at_exit (inp : vtkPolyData) (N : Z)
    (distribute_uniformly auto_simplify assume_triangles : bool) :
  0 <= N -> 10 * N <= Int.INT_MAX ->
  let bounds := GetBounds K inp in
  let dm := distance_input K inp auto_simplify assume_triangles in
  let s := sampling_loop K R C inp N distribute_uniformly auto_simplify assume_triangles in
  accepted K R C distribute_uniformly bounds dm (attempts s) (initial_generators R C) =
  take (Z.to_nat N)
    (List.filter inside
       (candidates K R C distribute_uniformly bounds dm (Z.to_nat (10 * N))
          (initial_generators R C))).
Proof.
  intros H0 Hmul bounds dm s.
  assert (HN : 0 <= N <= Int.INT_MAX) by lia.
  destruct (SamplerFacts.final_state K R C inp N distribute_uniformly
              auto_simplify assume_triangles HN)
    as [[Ht Hg Hi Hle Hlp Hld Hp Hd] Hc].
  fold s bounds dm in Ht, Hg, Hi, Hle, Hc.
  assert (HL : Int.mul 10 N = 10 * N).
  { apply IntFacts.wrap_small. unfold Int.INT_MIN, Int.INT_MAX in *. lia. }
  destruct (SamplerSpec.accepted_split K R C distribute_uniformly bounds dm
              (initial_generators R C) (attempts s) (Z.to_nat (10 * N)))
    as [rest Hrest].
  { unfold attempts. rewrite HL in Ht. lia. }
  fold (accepted K R C distribute_uniformly bounds dm
          (Z.to_nat (10 * N)) (initial_generators R C)).
  unfold loop_condition in Hc. rewrite HL in Hc.
  apply andb_false_iff in Hc as [Hc | Hc]; apply Z.ltb_ge in Hc.
  - rewrite Hrest. rewrite take_app_length'; [reflexivity | lia].
  - assert (Hatt : attempts s = Z.to_nat (10 * N)).
    { unfold attempts. rewrite HL in Ht. lia. }
    rewrite <- Hatt. rewrite firstn_all2; [reflexivity | lia].
Qed.


(** X2: no attempt is made once [N] points are accepted: before each
    attempt of a run fewer than [N] candidates had been accepted, so a
    full output ends with the candidate of the last attempt. *)
Theorem sampler_stops_at_the_last_point (inp : vtkPolyData) (N : Z)
    (distribute_uniformly auto_simplify assume_triangles : bool) :
  0 <= N <= Int.INT_MAX ->
  let bounds := GetBounds K inp in
  let dm := distance_input K inp auto_simplify assume_triangles in
  let g0 := initial_generators R C in
  let s := sampling_loop K R C inp N distribute_uniformly auto_simplify assume_triangles in
  (forall n : nat,
     (n < attempts s)%nat ->
     Z.of_nat (length (accepted K R C distribute_uniformly bounds dm n g0)) < N) /\
  (i s = N -> 0 < N ->
   exists n : nat,
     attempts s = S n /\
     inside (candidate K R C distribute_uniformly bounds dm g0 n) = true).
Proof.
  intros HN bounds dm g0 s.
  assert (Hnb : forall n : nat,
             (n < attempts s)%nat ->
             Z.of_nat (length (accepted K R C distribute_uniformly bounds dm n g0)) < N)
    by exact (SamplerSpec.never_beyond_final K R C N distribute_uniformly bounds dm HN g0).
  destruct (SamplerFacts.final_state K R C inp N distribute_uniformly
              auto_simplify assume_triangles HN)
    as [[Ht Hg Hi Hle Hlp Hld Hp Hd] Hc].
  fold s bounds dm g0 in Ht, Hg, Hi, Hle, Hc.
  split; [exact Hnb|].
  intros HiN Hpos.
  destruct (attempts s) as [|n] eqn:Hatt.
  - simpl in Hi. lia.
  - exists n. split; [reflexivity|].
    specialize (Hnb n (Nat.lt_succ_diag_r n)).
    rewrite LoopFacts.accepted_S in Hi.
    destruct (inside (candidate K R C distribute_uniformly bounds dm g0 n));
      [reflexivity|].
    rewrite app_nil_r in Hi. lia.
Qed.

(** X3: when [10 * N] is an [int], the cook ends in one of two ways:
    with [N] points and nothing printed, or with fewer than [N] points
    after exactly [10 * N] attempts and the warning that reports these
    two numbers; in both the output has as many distances as points. *)
Theorem sampler_full_or_exhausted (inp out : vtkPolyData) (N : Z)
    (distribute_uniformly auto_simplify assume_triangles : bool) :
  0 <= N -> 10 * N <= Int.INT_MAX ->
  let s := sampling_loop K R C inp N distribute_uniformly auto_simplify assume_triangles in
  let r := vtkCook_inner K R C inp out N distribute_uniformly auto_simplify assume_triangles in
  GetNumberOfPoints (output_polydata r) = i s /\
  (exists arr, GetArray "distance" (output_polydata r) = Some arr /\
               Z.of_nat (length arr) = i s) /\
  ((i s = N /\ stdout r = []) \/
   (i s < N /\ iteration_count s = 10 * N /\
    stdout r = [WARNING_gave_up (10 * N) (i s)])).
Proof.
  intros H0 Hmul s r.
  assert (HN : 0 <= N <= Int.INT_MAX) by lia.
  destruct (SamplerFacts.final_state K R C inp N distribute_uniformly
              auto_simplify assume_triangles HN)
    as [[Ht Hg Hi Hle Hlp Hld Hp Hd] Hc].
  fold s in Ht, Hg, Hi, Hle, Hc.
  assert (HL : Int.mul 10 N = 10 * N).
  { apply IntFacts.wrap_small. unfold Int.INT_MIN, Int.INT_MAX in *. lia. }
  split; [|split].
  - unfold GetNumberOfPoints, r.
    rewrite (SamplerFacts.cook_points K R C inp out N distribute_uniformly
               auto_simplify assume_triangles HN).
    fold s. rewrite length_map. lia.
  - eexists. split.
    + unfold r. apply (SamplerFacts.cook_distances K R C inp out N distribute_uniformly
               auto_simplify assume_triangles HN).
    + fold s. rewrite length_map. lia.
  - unfold r, vtkCook_inner. fold s.
    destruct (i s <? N) eqn:E.
    + right. apply Z.ltb_lt in E.
      unfold loop_condition in Hc. rewrite HL in Hc, Ht.
      apply andb_false_iff in Hc as [Hc | Hc]; apply Z.ltb_ge in Hc; [lia|].
      assert (Heq : iteration_count s = 10 * N) by lia.
      rewrite Heq. split; [exact E | split; reflexivity].
    + left. apply Z.ltb_ge in E. split; [lia | reflexivity].
Qed.

End SamplerExtras.

(** ** The pseudo-random distribution *)

Module PseudoRandom.

Import VolumePointSampler.

Section TwoRecurrences.

Context (K : Kernel) (R : RandomSequence) (C1 C2 : AdditiveRecurrence.constants).
Variables (N : Z) (bounds : Bounds) (dm : vtkPolyData).

Lemma draw_random (g1 g2 : Generators R) :
  random_generator_vtk g1 = random_generator_vtk g2 ->
  fst (draw K R C1 false bounds dm g1) = fst (draw K R C2 false bounds dm g2) /\
  random_generator_vtk (snd (draw K R C1 false bounds dm g1)) =
  random_generator_vtk (snd (draw K R C2 false bounds dm g2)).
Proof.
  intros H. unfold draw, get_random_uniform.
  destruct bounds as [[[[[b0 b1] b2] b3] b4] b5]. simpl. rewrite H. split; reflexivity.
Qed.

Lemma body_random (s1 s2 : LoopState R) :
  erase_custom s1 = erase_custom s2 ->
  erase_custom (loop_body K R C1 false bounds dm s1) =
  erase_custom (loop_body K R C2 false bounds dm s2).
Proof.
  unfold erase_custom. intros H. injection H as Hi Ht Hp Hd Hg.
  destruct (draw_random (generators s1) (generators s2) Hg) as [Hfst Hsnd].
  unfold loop_body.
  destruct (draw K R C1 false bounds dm (generators s1)) as [[p1 d1] g1].
  destruct (draw K R C2 false bounds dm (generators s2)) as [[p2 d2] g2].
  simpl in Hfst, Hsnd. injection Hfst as -> ->.
  destruct (d2 <? 0)%float; simpl; congruence.
Qed.

Lemma condition_random (s1 s2 : LoopState R) :
  erase_custom s1 = erase_custom s2 -> loop_condition N s1 = loop_condition N s2.
Proof.
  unfold erase_custom, loop_condition. intros H. injection H as -> -> _ _ _. reflexivity.
Qed.

Lemma loop_random (du : bool) (s1 : LoopState R) :
  du = false ->
  forall s2 : LoopState R,
    erase_custom s1 = erase_custom s2 ->
    erase_custom (rejection_loop K R C1 N du bounds dm s1) =
    erase_custom (rejection_loop K R C2 N du bounds dm s2).
Proof.
  funelim (rejection_loop K R C1 N du bounds dm s1); intros -> s2 He.
  - rewrite (LoopFacts.unfold K R C2 _ _ _ _ s2).
    rewrite <- (condition_random _ _ He), e.
    apply H; [reflexivity|]. apply body_random. exact He.
  - rewrite (LoopFacts.unfold K R C2 _ _ _ _ s2).
    rewrite <- (condition_random _ _ He), e. exact He.
Qed.

End TwoRecurrences.

End PseudoRandom.

(** X4: without [distribute_uniformly] the additive recurrence is never
    consulted: the result of the cook is the same whatever its increments
    and start values are. *)
Theorem random_sampling_ignores_the_recurrence (K : Kernel) (R : RandomSequence)
    (C1 C2 : AdditiveRecurrence.constants)
    (inp out : vtkPolyData) (N : Z) (auto_simplify assume_triangles : bool) :
  VolumePointSampler.vtkCook_inner K R C1 inp out N false auto_simplify assume_triangles =
  VolumePointSampler.vtkCook_inner K R C2 inp out N false auto_simplify assume_triangles.
Proof.
  unfold VolumePointSampler.vtkCook_inner.
  assert (H : erase_custom
                (VolumePointSampler.sampling_loop K R C1 inp N false auto_simplify assume_triangles) =
              erase_custom
                (VolumePointSampler.sampling_loop K R C2 inp N false auto_simplify assume_triangles)).
  { unfold VolumePointSampler.sampling_loop.
    apply PseudoRandom.loop_random; reflexivity. }
  unfold erase_custom in H. injection H as Hi Ht Hp Hd _.
  rewrite Hi, Ht, Hp, Hd. reflexivity.
Qed.

(** ** The cooks of the other effects *)

(** X5: the cook of Mask points hands the filter a random mode type
    between 0 and 3: the parameter itself when it lies in that range (the
    range it is declared with), 0 below it and 3 above it. *)
Theorem mask_points_clamps_the_mode (K : Kernel) (ps : OfxParamSet)
    (inp out : vtkPolyData) :
  let requested := GetParam_int ps "RandomModeType" in
  exists mode : Z,
    0 <= mode <= 3 /\
    (0 <= requested <= 3 -> mode = requested) /\
    (requested < 0 -> mode = 0) /\
    (3 < requested -> mode = 3) /\
    In (mkParamDef "RandomModeType" (LitInt 0) (Some (LitInt 0, LitInt 3))
          "Random distribution type")
       (declared VtkMaskPointsEffect) /\
    MaskPoints_vtkCook K ps inp out =
    mkCookResult kOfxStatOK
      (vtkMaskPoints K
         [ set_bool "SetRandomMode" (GetParam_bool ps "RandomMode");
           set_int "SetRandomModeType" mode;
           set_int "SetOnRatio" (GetParam_int ps "OnRatio");
           set_int "SetMaximumNumberOfPoints" (GetParam_int ps "MaximumNumberOfPoints") ]
         inp)
      [].
Proof.
  intros requested. exists (Z.max 0 (Z.min 3 requested)).
  repeat split; try lia.
  simpl. tauto.
Qed.

(** X6: with neither the surface nor the wireframe asked for, the cook of
    Delaunay 3D runs the append filter without any input and copies its
    output: the result is a success that does not depend on the input
    mesh. *)
Theorem delaunay_without_extraction (K : Kernel) (ps : OfxParamSet)
    (inp inp' out : vtkPolyData) :
  GetParam_bool ps "ExtractSurface" = false ->
  GetParam_bool ps "ExtractWireframe" = false ->
  Delaunay3D_vtkCook K ps inp out = mkCookResult kOfxStatOK (vtkAppendPolyData K []) [] /\
  Delaunay3D_vtkCook K ps inp out = Delaunay3D_vtkCook K ps inp' out.
Proof.
  intros Hs Hw. unfold Delaunay3D_vtkCook. rewrite Hs, Hw. split; reflexivity.
Qed.

Lemma delaunay_without_extraction_witness :
  Delaunay3D_vtkCook Reference.kernel (Reference.params 0 0 false)
    Reference.octahedron vtkPolyData_New =
  mkCookResult kOfxStatOK vtkPolyData_New [] /\
  Delaunay3D_vtkCook Reference.kernel (Reference.params 0 0 false)
    Reference.octahedron vtkPolyData_New =
  Delaunay3D_vtkCook Reference.kernel (Reference.params 0 0 false)
    Reference.square vtkPolyData_New.
Proof.
  exact (delaunay_without_extraction Reference.kernel (Reference.params 0 0 false)
           Reference.octahedron Reference.square vtkPolyData_New eq_refl eq_refl).
Defined.

(** ** The declarations and the parameters that are read *)

Module DescribeFacts.

Lemma distinct_NoDup (l : list string) : distinct l = true -> NoDup l.
Proof.
  induction l as [|x l IH]; simpl; intros H.
  - apply NoDup_nil_2.
  - apply andb_prop in H as [Hx Hl]. apply NoDup_cons_2; [|apply IH; exact Hl].
    intros Hin. apply negb_true_iff in Hx.
    assert (existsb (String.eqb x) l = true); [|congruence].
    apply existsb_exists. exists x. split.
    + apply list_elem_of_In. exact Hin.
    + apply String.eqb_refl.
Qed.

(** The equations that an agreement on a list of declarations gives, one
    hypothesis for each declaration. *)
Ltac split_agreement H :=
  repeat match type of H with
         | Forall _ (_ :: _) =>
             let E := fresh "E" in
             apply Forall_cons in H as [E H];
             cbv [agree_on kind_of pd_default pd_name Label Range AddParam] in E
         end;
  clear H.


Ltac split_conjunctions :=
  repeat match goal with
         | E : _ /\ _ |- _ => destruct E
         end.

Ltac unfold_cooks :=
  cbn [vtkCook vtkIsIdentity];
  unfold Smooth_vtkCook, WindowedSinc_vtkCook, PointSampler_vtkCook,
    MaskPoints_vtkCook, FeatureEdges_vtkCook, VolumePointSampler.vtkCook,
    VolumePointSampler.PARAM_NUMBER_OF_POINTS,
    VolumePointSampler.PARAM_DISTRIBUTE_UNIFORMLY,
    VolumePointSampler.PARAM_AUTO_SIMPLIFY,
    Delaunay3D_vtkCook, FillHoles_vtkCook, TubeFilter_vtkCook,
    QuadricDecimation_vtkCook, DecimatePro_vtkCook, QuadricClustering_vtkCook,
    Identity_vtkCook, VtkEffect_vtkIsIdentity,
    GetParam_int, GetParam_double, GetParam_bool, GetParam_int3.

Ltac rewrite_equations :=
  repeat match goal with
         | E : @eq _ (_ _ _) (_ _ _) |- _ => rewrite ?E; clear E
         end.

End DescribeFacts.

(** X7: a cook and an identity check read no parameter but those the
    effect declares in [vtkDescribe]: two parameter sets with the same
    values under the declared names give the same cook result and the
    same identity answer. *)
Theorem cook_reads_declared_names (K : Kernel) (R : RandomSequence)
    (C : AdditiveRecurrence.constants) (e : Effect) (ps1 ps2 : OfxParamSet)
    (inp out : vtkPolyData) :
  Forall (agree_at ps1 ps2) (declared_names e) ->
  vtkCook K R C e ps1 inp out = vtkCook K R C e ps2 inp out /\
  vtkIsIdentity e ps1 = vtkIsIdentity e ps2.
Proof.
  intros H. unfold declared_names, declared in H.
  destruct e; simpl in H; DescribeFacts.split_agreement H;
    unfold agree_at in *; DescribeFacts.split_conjunctions;
    DescribeFacts.unfold_cooks; DescribeFacts.rewrite_equations;
    split; reflexivity.
Qed.

(** A parameter set that differs from [Reference.params 0 0 false] under
    a name that Decimate (pro) does not declare. *)
Lemma cook_reads_declared_names_witness :
  let ps1 := Reference.params 0 0 false in
  let ps2 :=
    mkParamSet (fun name => if String.eqb name "Undeclared" then 7 else 0)
               (fun _ => 0%float) (fun _ => false) (fun _ => (0, 0, 0)) in
  param_int ps1 "Undeclared" = 0 /\ param_int ps2 "Undeclared" = 7 /\
  vtkCook Reference.kernel Reference.random_sequence Reference.constants
    VtkDecimateProEffect ps1 Reference.octahedron vtkPolyData_New =
  vtkCook Reference.kernel Reference.random_sequence Reference.constants
    VtkDecimateProEffect ps2 Reference.octahedron vtkPolyData_New /\
  vtkIsIdentity VtkDecimateProEffect ps1 = vtkIsIdentity VtkDecimateProEffect ps2.
Proof.
  split; [reflexivity|]. split; [reflexivity|].
  apply (cook_reads_declared_names Reference.kernel Reference.random_sequence
           Reference.constants VtkDecimateProEffect).
  unfold declared_names, declared. simpl.
  repeat (apply List.Forall_cons; [repeat split|]). apply List.Forall_nil.
Defined.


(** X9: in every [vtkDescribe] of the registry the declared names are
    pairwise different, every default lies in the range it is declared
    with, every declaration has a label, and the status is
    [kOfxStatOK]. *)
Theorem declarations_are_well_formed :
  Forall (fun e : Effect =>
            fst (vtkDescribe e) = kOfxStatOK /\
            NoDup (declared_names e) /\
            Forall (fun p => default_in_range p = true /\ pd_label p <> ""%string)
                   (declared e))
         registry.
Proof.
  unfold registry.
  repeat (apply List.Forall_cons;
          [split; [reflexivity|]; split;
           [apply DescribeFacts.distinct_NoDup; vm_compute; reflexivity
           |unfold declared; simpl;
            repeat (apply List.Forall_cons;
                    [split; [vm_compute; reflexivity | discriminate]|]);
            apply List.Forall_nil]
          |]).
  apply List.Forall_nil.
Qed.

(** X10: the registry lists every effect once, and no two effects have
    the same name. *)
Theorem effect_names_are_unique :
  NoDup (map GetName registry) /\ NoDup registry /\ forall e : Effect, In e registry.
Proof.
  split; [|split].
  - apply DescribeFacts.distinct_NoDup. vm_compute. reflexivity.
  - apply (NoDup_fmap_1 GetName).
    apply DescribeFacts.distinct_NoDup. vm_compute. reflexivity.
  - intros e. destruct e; simpl; tauto.
Qed.

(** X11: the identity check of Fill holes prints one line at every call
    (the hole size and [DBL_EPSILON]); no other identity check prints, and
    no cook but the sampler's prints. *)
Theorem what_is_printed (K : Kernel) (R : RandomSequence)
    (C : AdditiveRecurrence.constants) (e : Effect) (ps : OfxParamSet)
    (inp out : vtkPolyData) :
  snd (vtkIsIdentity VtkFillHolesEffect ps) =
    [FillHoles_identity_check (GetParam_double ps "HoleSize") Double.DBL_EPSILON] /\
  (e <> VtkFillHolesEffect -> snd (vtkIsIdentity e ps) = []) /\
  (e <> VtkVolumePointSamplerEffect -> stdout (vtkCook K R C e ps inp out) = []).
Proof.
  split; [reflexivity|]. split; intros He; destruct e; try reflexivity; try congruence.
  simpl. unfold QuadricClustering_vtkCook.
  destruct (GetParam_int3 ps "NumberOfDivisions") as [[d0 d1] d2]. reflexivity.
Qed.

(** ** The order of the doubles and the identity checks *)

Module OrderFacts.

Ltac compare_cases :=
  repeat match goal with
         | |- context [(?a ?= ?b)%Z] => destruct (Z.compare_spec a b); simpl
         | H : context [(?a ?= ?b)%Z] |- _ => destruct (Z.compare_spec a b); simpl in H
         | |- context [(?a ?= ?b)%positive] => destruct (Pos.compare_spec a b); simpl
         | H : context [(?a ?= ?b)%positive] |- _ =>
             destruct (Pos.compare_spec a b); simpl in H
         end.

Lemma SFleb_trans (a b c : spec_float) :
  SFleb a b = true -> SFleb b c = true -> SFleb a c = true.
Proof.
  unfold SFleb, SFcompare.
  destruct a as [sa|sa| |sa ma ea], b as [sb|sb| |sb mb eb], c as [sc|sc| |sc mc ec];
    try discriminate; try reflexivity;
    try (destruct sa, sb, sc; simpl; (discriminate || reflexivity || (intros; assumption))).
  all: change PosDef.Pos.compare_cont with Pos.compare_cont;
       change (Pos.compare_cont Eq) with Pos.compare.
  all: destruct sa, sb, sc; simpl; try discriminate; try reflexivity; intros H1 H2.
  all: compare_cases; try discriminate; try reflexivity; try lia.
Qed.

(** [<=] on doubles is transitive. *)
Lemma leb_trans (x y z : float) :
  (x <=? y)%float = true -> (y <=? z)%float = true -> (x <=? z)%float = true.
Proof. rewrite !FloatAxioms.leb_spec. apply SFleb_trans. Qed.

End OrderFacts.

(** X12: [is_positive_double] is upward closed, so the identity checks of
    Decimate (pro), Decimate (quadric) and Fill holes are downward closed:
    when the check answers [true] for a value of the parameter, it answers
    [true] for every value that is less or equal. *)
Theorem identity_checks_are_downward_closed :
  (forall x y : float,
     is_positive_double x = true -> (x <=? y)%float = true ->
     is_positive_double y = true) /\
  Forall (fun en : Effect * string =>
            forall ps1 ps2 : OfxParamSet,
              (GetParam_double ps1 (snd en) <=? GetParam_double ps2 (snd en))%float = true ->
              isIdentity (fst en) ps2 = true ->
              isIdentity (fst en) ps1 = true)
         double_identity_checks.
Proof.
  assert (Hup : forall x y : float,
             is_positive_double x = true -> (x <=? y)%float = true ->
             is_positive_double y = true).
  { intros x y Hx Hxy. unfold is_positive_double in *.
    exact (OrderFacts.leb_trans _ _ _ Hx Hxy). }
  split; [exact Hup|].
  assert (Hdown : forall x y : float,
             (x <=? y)%float = true ->
             negb (is_positive_double y) = true -> negb (is_positive_double x) = true).
  { intros x y Hxy Hy. destruct (is_positive_double x) eqn:Hx; [|reflexivity].
    rewrite (Hup x y Hx Hxy) in Hy. discriminate. }
  unfold double_identity_checks.
  repeat (apply List.Forall_cons; [intros ps1 ps2; apply Hdown|]).
  apply List.Forall_nil.
Qed.

(** ** More points, and the first faces that are simplified *)

Section SamplerGrowth.

Import VolumePointSampler.

Context (K : Kernel) (R : RandomSequence) (C : AdditiveRecurrence.constants).

Lemma take_app_extends {A : Type} (l rest : list A) (n n' : nat) :
  (n <= n')%nat -> exists more, take n' (l ++ rest) = take n l ++ more.
Proof.
  intros Hle.
  exists (take (n - length l) rest ++ drop n (take n' (l ++ rest))).
  rewrite app_assoc, <- firstn_app.
  replace n with (n `min` n')%nat at 1 by lia.
  rewrite <- take_take, take_drop. reflexivity.
Qed.

(** X13: asking for more points extends the result: for [N <= N'] (with
    [10 * N'] an [int]) the points and the distances that the cook returns
    for [N] are the first ones of those it returns for [N'], on the same
    input and with the same flags. *)
Theorem more_points_extend_the_result (inp out : vtkPolyData) (N N' : Z)
    (distribute_uniformly auto_simplify assume_triangles : bool) :
  0 <= N <= N' -> 10 * N' <= Int.INT_MAX ->
  let r := vtkCook_inner K R C inp out N distribute_uniformly auto_simplify assume_triangles in
  let r' := vtkCook_inner K R C inp out N' distribute_uniformly auto_simplify assume_triangles in
  exists more : list (Point * float),
    Points (output_polydata r') = Points (output_polydata r) ++ map fst more /\
    exists arr, GetArray "distance" (output_polydata r) = Some arr /\
                GetArray "distance" (output_polydata r') = Some (arr ++ map snd more).
Proof.
  intros HN Hmul r r'.
  assert (HN1 : 0 <= N <= Int.INT_MAX) by lia.
  assert (HN2 : 0 <= N' <= Int.INT_MAX) by lia.
  pose proof (SamplerFacts.cook_points K R C inp out N distribute_uniformly
                auto_simplify assume_triangles HN1) as HP.
  pose proof (SamplerFacts.cook_distances K R C inp out N distribute_uniformly
                auto_simplify assume_triangles HN1) as HD.
  pose proof (SamplerFacts.cook_points K R C inp out N' distribute_uniformly
                auto_simplify assume_triangles HN2) as HP'.
  pose proof (SamplerFacts.cook_distances K R C inp out N' distribute_uniformly
                auto_simplify assume_triangles HN2) as HD'.
  rewrite (accepted_at_exit K R C inp N distribute_uniformly auto_simplify
             assume_triangles) in HP, HD by lia.
  rewrite (accepted_at_exit K R C inp N' distribute_uniformly auto_simplify
             assume_triangles) in HP', HD' by lia.
  fold r in HP, HD. fold r' in HP', HD'.
  destruct (SamplerSpec.accepted_split K R C distribute_uniformly (GetBounds K inp)
              (distance_input K inp auto_simplify assume_triangles)
              (initial_generators R C) (Z.to_nat (10 * N)) (Z.to_nat (10 * N')))
    as [rest Hrest]; [lia|].
  unfold accepted in Hrest. rewrite Hrest in HP', HD'.
  destruct (take_app_extends
              (List.filter inside
                 (candidates K R C distribute_uniformly (GetBounds K inp)
                    (distance_input K inp auto_simplify assume_triangles)
                    (Z.to_nat (10 * N)) (initial_generators R C)))
              rest (Z.to_nat N) (Z.to_nat N')) as [more Hmore]; [lia|].
  rewrite Hmore, map_app in HP', HD'.
  exists more. split.
  - rewrite HP', HP. reflexivity.
  - eexists. split; [exact HD | exact HD'].
Qed.

End SamplerGrowth.

(** X14: for a triangulated boundary of fewer than 65536 faces, the ratio
    of line 295 is below 1 exactly from 1033 faces on: with
    [auto_simplify] and more than 100 polygons in the input, the distance
    is that of the decimated mesh when the triangulated boundary has at
    least 1033 faces, and that of the input as it is otherwise. *)
Theorem simplification_starts_at_1033_faces (K : Kernel) (inp : vtkPolyData)
    (assume_triangles : bool) :
  (forall n, 0 <= n < 2 ^ 16 ->
             (VolumePointSampler.target_reduction n <? 1)%float = (1033 <=? n)) /\
  (let tri := if assume_triangles then inp else vtkTriangleFilter K inp in
   let n := GetNumberOfPolys tri in
   100 < GetNumberOfPolys inp -> n < 2 ^ 16 ->
   VolumePointSampler.distance_input K inp true assume_triangles =
   if 1033 <=? n
   then vtkQuadricDecimation K
          [("SetTargetReduction"%string,
            [ArgDouble (VolumePointSampler.target_reduction n)])] tri
   else inp).
Proof.
  assert (H : forall n, 0 <= n < 2 ^ 16 ->
                (VolumePointSampler.target_reduction n <? 1)%float = (1033 <=? n)).
  { intros n Hn. apply Bool.eqb_prop.
    apply (DoubleFacts.all_below_spec
             (fun n => Bool.eqb (VolumePointSampler.target_reduction n <? 1)%float
                                (1033 <=? n))
             (2 ^ 16)%N); [vm_compute; reflexivity | exact Hn]. }
  split; [exact H|].
  intros tri n Hbig Hn.
  rewrite (distance_input_large K inp assume_triangles Hbig).
  fold tri n. fold (VolumePointSampler.target_reduction n).
  rewrite H; [reflexivity|].
  unfold n, GetNumberOfPolys in *. lia.
Qed.

(** ** The further statements on the reference kernel *)


(** Three points asked for, in the octahedron: the fifth attempt is the
    last one. *)
Lemma sampler_stops_at_the_last_point_witness :
  let s :=
    VolumePointSampler.sampling_loop Reference.kernel Reference.random_sequence
      Reference.constants Reference.octahedron 3 true true false in
  VolumePointSampler.attempts s = 5%nat /\
  exists n : nat,
    VolumePointSampler.attempts s = S n /\
    VolumePointSampler.inside
      (VolumePointSampler.candidate Reference.kernel Reference.random_sequence
         Reference.constants true (GetBounds Reference.kernel Reference.octahedron)
         (VolumePointSampler.distance_input Reference.kernel Reference.octahedron true false)
         (VolumePointSampler.initial_generators Reference.random_sequence
            Reference.constants) n) = true.
Proof.
  assert (HN : 0 <= 3 <= Int.INT_MAX) by (unfold Int.INT_MAX; simpl; lia).
  split; [vm_compute; reflexivity|].
  apply (sampler_stops_at_the_last_point Reference.kernel Reference.random_sequence
           Reference.constants Reference.octahedron 3 true true false HN).
  - vm_compute. reflexivity.
  - lia.
Defined.

(** Three points asked for, on a boundary without faces. *)
Lemma sampler_full_or_exhausted_witness :
  let s :=
    VolumePointSampler.sampling_loop Reference.kernel Reference.random_sequence
      Reference.constants Reference.no_face 3 true true false in
  let r :=
    VolumePointSampler.vtkCook_inner Reference.kernel Reference.random_sequence
      Reference.constants Reference.no_face vtkPolyData_New 3 true true false in
  GetNumberOfPoints (output_polydata r) = VolumePointSampler.i s /\
  (exists arr, GetArray "distance" (output_polydata r) = Some arr /\
               Z.of_nat (length arr) = VolumePointSampler.i s) /\
  ((VolumePointSampler.i s = 3 /\ stdout r = []) \/
   (VolumePointSampler.i s < 3 /\ VolumePointSampler.iteration_count s = 10 * 3 /\
    stdout r = [WARNING_gave_up (10 * 3) (VolumePointSampler.i s)])).
Proof.
  apply (sampler_full_or_exhausted Reference.kernel Reference.random_sequence
           Reference.constants Reference.no_face vtkPolyData_New 3 true true false).
  - lia.
  - unfold Int.INT_MAX. simpl. lia.
Defined.

(** Two points, then three, in the octahedron. *)
Lemma more_points_extend_the_result_witness :
  let r :=
    VolumePointSampler.vtkCook_inner Reference.kernel Reference.random_sequence
      Reference.constants Reference.octahedron vtkPolyData_New 2 true true false in
  let r' :=
    VolumePointSampler.vtkCook_inner Reference.kernel Reference.random_sequence
      Reference.constants Reference.octahedron vtkPolyData_New 3 true true false in
  exists more : list (Point * float),
    Points (output_polydata r') = Points (output_polydata r) ++ map fst more /\
    exists arr, GetArray "distance" (output_polydata r) = Some arr /\
                GetArray "distance" (output_polydata r') = Some (arr ++ map snd more).
Proof.
  apply (more_points_extend_the_result Reference.kernel Reference.random_sequence
           Reference.constants Reference.octahedron vtkPolyData_New 2 3 true true false).
  - lia.
  - unfold Int.INT_MAX. simpl. lia.
Defined.
